(** * Verification of the fill-controller core of the Big-Beautiful-Box dashboard

    Shallow embedding of the control logic of [dashboard.py] (and of the
    helper modules under [src/]): the per-tick fill controller of
    [update_dashboard], the stale-frame detection and power-cycle rate
    limiter of [read_flow_meter] / [_try_iol_power_cycle] /
    [iol_power_cycle], the relay pulse of [pump_stop_relay], the command
    dispatch of [serial_listener] and [socket_command_listener], the mode
    switch, the pending-fill confirmation and the menu navigation; and
    from [src/]: the helpers of [calculations.py], [FlowMeter.read] with
    its retries and [calculate_coast_distance] ([flow_meter.py]),
    [GPIOHandler.set_relay] and the [DashboardState] store of [state.py].

    Python floats for gallons, flow rates and timestamps are modelled as
    rationals [Q]; drawing, printing and log writes that cannot fail the
    claimed behaviour are left out, and where a log write can raise an
    exception it is modelled explicitly. *)

From Stdlib Require Import QArith Qminmax Lqa Bool List String ZArith Lia.
Import ListNotations.
Open Scope Q_scope.

(** ** Python comparisons on floats *)

Definition Qltb (a b : Q) : bool := negb (Qle_bool b a).
Definition Qgeb (a b : Q) : bool := Qle_bool b a.

(** [max(a, b)] of Python: the first argument unless the second is larger. *)
Definition py_max (a b : Q) : Q := if Qltb a b then b else a.

(** ** [config.py] *)

Module Config.
Definition FLOW_STOPPED_THRESHOLD : Q := 1 # 1000.
Definition FLOW_METER_TIMEOUT : Q := 5.
Definition IOL_RECONNECT_INTERVAL : Q := 15.
Definition LITERS_PER_SEC_TO_GPM : Q := 15850323 # 1000000.
Definition FLOW_CURVE_SLOPE : Q := 30625 # 1000000.
Definition FLOW_CURVE_INTERCEPT : Q := -22375 # 100000.
Definition DATA_LENGTH : nat := 15.
End Config.

(** ** [calculate_trigger_threshold] (dashboard.py) *)

Definition calculate_trigger_threshold (flow_rate_l_per_s : Q) : Q :=
  let flow_rate_gpm := flow_rate_l_per_s * Config.LITERS_PER_SEC_TO_GPM in
  let predicted_coast :=
    Config.FLOW_CURVE_SLOPE * flow_rate_gpm + Config.FLOW_CURVE_INTERCEPT in
  py_max predicted_coast (1 # 10).

(** ** The fill controller: [update_dashboard] (dashboard.py)

    The module-level globals that [update_dashboard] reads and writes.
    [read_flow_meter] runs first in the tick; its result [actual] and the
    [last_flow_rate] / [last_successful_read_time] it leaves behind are the
    inputs of the controller logic below. *)

Module Fill.

Record DashState := mkDash {
  requested_gallons : Q;
  override_mode : bool;
  override_enabled_time : Q;
  last_alert_triggered : bool;
  was_flowing : bool;
  colors_are_green : bool;
  pending_fill_gallons : Q;
  pending_fill_requested : Q;
  pending_fill_shutoff_type : string;
  last_flow_rate : Q;
  last_successful_read_time : Q
}.

Definition set_pending (g r : Q) (ty : string) (s : DashState) : DashState :=
  {| requested_gallons := requested_gallons s; override_mode := override_mode s;
     override_enabled_time := override_enabled_time s;
     last_alert_triggered := last_alert_triggered s; was_flowing := was_flowing s;
     colors_are_green := colors_are_green s;
     pending_fill_gallons := g; pending_fill_requested := r;
     pending_fill_shutoff_type := ty;
     last_flow_rate := last_flow_rate s;
     last_successful_read_time := last_successful_read_time s |}.

Definition set_colors (c : bool) (s : DashState) : DashState :=
  {| requested_gallons := requested_gallons s; override_mode := override_mode s;
     override_enabled_time := override_enabled_time s;
     last_alert_triggered := last_alert_triggered s; was_flowing := was_flowing s;
     colors_are_green := c;
     pending_fill_gallons := pending_fill_gallons s;
     pending_fill_requested := pending_fill_requested s;
     pending_fill_shutoff_type := pending_fill_shutoff_type s;
     last_flow_rate := last_flow_rate s;
     last_successful_read_time := last_successful_read_time s |}.

Definition set_was_flowing (w : bool) (s : DashState) : DashState :=
  {| requested_gallons := requested_gallons s; override_mode := override_mode s;
     override_enabled_time := override_enabled_time s;
     last_alert_triggered := last_alert_triggered s; was_flowing := w;
     colors_are_green := colors_are_green s;
     pending_fill_gallons := pending_fill_gallons s;
     pending_fill_requested := pending_fill_requested s;
     pending_fill_shutoff_type := pending_fill_shutoff_type s;
     last_flow_rate := last_flow_rate s;
     last_successful_read_time := last_successful_read_time s |}.

Definition set_override (o : bool) (t : Q) (s : DashState) : DashState :=
  {| requested_gallons := requested_gallons s; override_mode := o;
     override_enabled_time := t;
     last_alert_triggered := last_alert_triggered s; was_flowing := was_flowing s;
     colors_are_green := colors_are_green s;
     pending_fill_gallons := pending_fill_gallons s;
     pending_fill_requested := pending_fill_requested s;
     pending_fill_shutoff_type := pending_fill_shutoff_type s;
     last_flow_rate := last_flow_rate s;
     last_successful_read_time := last_successful_read_time s |}.

Definition set_alert (a : bool) (s : DashState) : DashState :=
  {| requested_gallons := requested_gallons s; override_mode := override_mode s;
     override_enabled_time := override_enabled_time s;
     last_alert_triggered := a; was_flowing := was_flowing s;
     colors_are_green := colors_are_green s;
     pending_fill_gallons := pending_fill_gallons s;
     pending_fill_requested := pending_fill_requested s;
     pending_fill_shutoff_type := pending_fill_shutoff_type s;
     last_flow_rate := last_flow_rate s;
     last_successful_read_time := last_successful_read_time s |}.

(** [flow_meter_disconnected = (time.time() - last_successful_read_time) > FLOW_METER_TIMEOUT] *)
Definition flow_meter_disconnected (now : Q) (s : DashState) : bool :=
  Qltb Config.FLOW_METER_TIMEOUT (now - last_successful_read_time s).

(** [is_flowing = last_flow_rate >= FLOW_STOPPED_THRESHOLD] *)
Definition is_flowing (s : DashState) : bool :=
  Qgeb (last_flow_rate s) Config.FLOW_STOPPED_THRESHOLD.

(** Flow-stop and flow-start transitions, then [was_flowing = is_flowing]. *)
Definition flow_transitions (actual : Q) (s : DashState) : DashState :=
  let flowing := is_flowing s in
  let s1 :=
    if was_flowing s && negb flowing then
      set_pending actual (requested_gallons s)
        (if last_alert_triggered s then "Auto" else "Manual") s
    else s in
  let s2 :=
    if negb (was_flowing s1) && flowing then
      set_pending 0 0 "" (set_colors false s1)
    else s1 in
  set_was_flowing flowing s2.

(** Override auto-disable after 60 s without flow (connected meter only). *)
Definition override_supervision (now : Q) (s : DashState) : DashState :=
  if override_mode s && negb (flow_meter_disconnected now s) then
    if Qltb (last_flow_rate s) Config.FLOW_STOPPED_THRESHOLD then
      if Qltb 60 (now - override_enabled_time s) then
        set_override false (override_enabled_time s) s
      else s
    else set_override (override_mode s) now s
  else s.

(** Auto-alert decision; the boolean result says whether the relay thread
    [pump_stop_relay(AUTO_ALERT_DURATION)] was started on this tick. *)
Definition auto_alert (now actual : Q) (s : DashState) : DashState * bool :=
  let trigger_threshold := calculate_trigger_threshold (last_flow_rate s) in
  if negb (override_mode s) && negb (flow_meter_disconnected now s)
     && Qgeb actual (requested_gallons s - trigger_threshold)
     && negb (last_alert_triggered s) then
    (set_alert true s, true)
  else if Qltb actual (requested_gallons s - trigger_threshold) then
    (set_alert false s, false)
  else (s, false).

(** One call of [update_dashboard], given [actual = read_flow_meter()]. *)
Definition update_dashboard (now actual : Q) (s : DashState) : DashState * bool :=
  auto_alert now actual (override_supervision now (flow_transitions actual s)).

(** What [read_flow_meter] leaves in the globals read by the controller. *)
Definition set_reading (flow_rate read_time : Q) (s : DashState) : DashState :=
  {| requested_gallons := requested_gallons s; override_mode := override_mode s;
     override_enabled_time := override_enabled_time s;
     last_alert_triggered := last_alert_triggered s; was_flowing := was_flowing s;
     colors_are_green := colors_are_green s;
     pending_fill_gallons := pending_fill_gallons s;
     pending_fill_requested := pending_fill_requested s;
     pending_fill_shutoff_type := pending_fill_shutoff_type s;
     last_flow_rate := flow_rate;
     last_successful_read_time := read_time |}.

(** One poll tick: the clock, the gallons returned by [read_flow_meter],
    and the flow rate and last-success time it leaves behind. *)
Record Tick := mkTick {
  t_now : Q;
  t_actual : Q;
  t_flow_rate : Q;
  t_read_time : Q
}.

Definition tick (s : DashState) (k : Tick) : DashState :=
  fst (update_dashboard (t_now k) (t_actual k)
         (set_reading (t_flow_rate k) (t_read_time k) s)).

Definition run_ticks (s : DashState) (ks : list Tick) : DashState :=
  fold_left tick ks s.

(** A tick with the meter connected and flow below the stopped threshold. *)
Definition low_connected (k : Tick) : bool :=
  Qltb (t_flow_rate k) Config.FLOW_STOPPED_THRESHOLD &&
  negb (Qltb Config.FLOW_METER_TIMEOUT (t_now k - t_read_time k)).

End Fill.

(** ** Sensor link: [read_flow_meter], [_try_iol_power_cycle] and
    [iol_power_cycle] (dashboard.py), [FlowMeter._parse_data]
    (src/flow_meter.py) *)

Module Sensor.

(** Bytes objects are lists of bytes; [==] on bytes is list equality. *)
Definition bytes_eqb (a b : list Byte.byte) : bool :=
  if list_eq_dec Byte.byte_eq_dec a b then true else false.

(** [raw_data == b'\x00' * len(raw_data)] *)
Definition all_zero (raw : list Byte.byte) : bool :=
  forallb (fun b => Byte.eqb b Byte.x00) raw.

(** [raw[a:b]] *)
Definition slice (raw : list Byte.byte) (a b : nat) : list Byte.byte :=
  firstn (b - a) (skipn a raw).

(** [struct.unpack('>f', four_bytes)]: the big-endian 32-bit pattern of
    the IEEE-754 single, kept as its bit pattern. *)
Definition be32 (four : list Byte.byte) : Z :=
  fold_left (fun acc b => Z.lor (Z.shiftl acc 8) (Z.of_N (Byte.to_N b))) four 0%Z.

(** [abs()] of an IEEE-754 single clears its sign bit (bit 31). *)
Definition f32_abs (bits : Z) : Z := Z.land bits (Z.ones 31).

(** Rate-limiter state of the IOL power cycle
    ([iol_power_cycle_in_progress], [last_power_cycle_time]); the counter
    records how many power-cycle threads have been started. *)
Record Recovery := mkRecovery {
  iol_power_cycle_in_progress : bool;
  last_power_cycle_time : Q;
  cycles_started : nat
}.

(** [_try_iol_power_cycle] *)
Definition try_iol_power_cycle (now : Q) (r : Recovery) : Recovery :=
  if iol_power_cycle_in_progress r then r
  else if Qltb (now - last_power_cycle_time r) Config.IOL_RECONNECT_INTERVAL then r
  else mkRecovery true (last_power_cycle_time r) (S (cycles_started r)).

(** Outcome of one [iolhat] call. *)
Inductive HatResult := HatOk | HatRaise.

(** How the body of [iol_power_cycle] left its [try] block. *)
Inductive CycleExit :=
  | CycleCompleted        (* fell off the end of the body *)
  | CycleReturnedEarly    (* a [return] after a failed power transition *)
  | CycleRaised.          (* an exception caught by the outer [except] *)

(** The body of [iol_power_cycle] up to its [finally]: power off, sleep,
    power on, sleep, LED (whose failure is swallowed).  [unexpected] says
    whether one of the prints raised, which the outer [except] catches. *)
Definition iol_power_cycle_body (power_off power_on : HatResult)
    (unexpected : bool) : CycleExit :=
  if unexpected then CycleRaised else
  match power_off with
  | HatRaise => CycleReturnedEarly
  | HatOk =>
      match power_on with
      | HatRaise => CycleReturnedEarly
      | HatOk => CycleCompleted
      end
  end.

(** [iol_power_cycle] as run by its thread, ending at time [t_end]: the
    [finally] clause runs on every exit of the body. *)
Definition iol_power_cycle (t_end : Q) (power_off power_on : HatResult)
    (unexpected : bool) (r : Recovery) : Recovery * CycleExit :=
  let exit := iol_power_cycle_body power_off power_on unexpected in
  (mkRecovery false t_end (cycles_started r), exit).

(** Events seen by the rate limiter: a recovery request from
    [read_flow_meter], or the end of a running power-cycle thread. *)
Inductive RecEvent :=
  | Request (t : Q)
  | Finish (t : Q) (power_off power_on : HatResult) (unexpected : bool).

Definition rec_step (r : Recovery) (e : RecEvent) : Recovery :=
  match e with
  | Request t => try_iol_power_cycle t r
  | Finish t off on u => fst (iol_power_cycle t off on u r)
  end.

Definition rec_run (r : Recovery) (es : list RecEvent) : Recovery :=
  fold_left rec_step es r.

(** The fault recorded in [error_message]. *)
Inductive Fault := AllZero | Stale | ShortFrame | TransportError.

(** The module-level globals touched by [read_flow_meter]; the decoded
    floats are kept as their IEEE-754 bit patterns. *)
Record SensorState := mkSensor {
  last_totalizer_bits : Z;
  last_flow_bits : Z;
  connection_error : bool;
  error_kind : option Fault;
  last_successful_read_time : Q;
  consecutive_identical_raw : nat;
  last_raw_data : option (list Byte.byte);
  recovery : Recovery
}.

(** [STALE_RAW_THRESHOLD] *)
Definition STALE_RAW_THRESHOLD : nat := 25.

(** Result of [iolhat.pd(...)]. *)
Inductive PdResult := PdRaise | PdData (raw : list Byte.byte).

Definition raw_eq_last (raw : list Byte.byte) (last : option (list Byte.byte)) : bool :=
  match last with
  | Some l => bytes_eqb raw l
  | None => false
  end.

(** [read_flow_meter] at time [now], given what [iolhat.pd] returned. *)
Definition read_flow_meter (now : Q) (pd : PdResult) (s : SensorState) : SensorState :=
  match pd with
  | PdRaise =>
      mkSensor (last_totalizer_bits s) (last_flow_bits s) true
        (Some TransportError) (last_successful_read_time s)
        (consecutive_identical_raw s) (last_raw_data s)
        (try_iol_power_cycle now (recovery s))
  | PdData raw =>
      if Nat.leb 15 (List.length raw) then
        if all_zero raw then
          mkSensor (last_totalizer_bits s) (last_flow_bits s) true
            (Some AllZero) (last_successful_read_time s) 0%nat None
            (try_iol_power_cycle now (recovery s))
        else
          let count :=
            if raw_eq_last raw (last_raw_data s)
            then S (consecutive_identical_raw s) else 0%nat in
          if raw_eq_last raw (last_raw_data s)
             && Nat.leb STALE_RAW_THRESHOLD count then
            mkSensor (last_totalizer_bits s) (last_flow_bits s) true
              (Some Stale) (last_successful_read_time s) count
              (last_raw_data s) (try_iol_power_cycle now (recovery s))
          else
            mkSensor (f32_abs (be32 (slice raw 4 8))) (be32 (slice raw 8 12))
              false None now count (Some raw) (recovery s)
      else
        mkSensor (last_totalizer_bits s) (last_flow_bits s) true
          (Some ShortFrame) (last_successful_read_time s)
          (consecutive_identical_raw s) (last_raw_data s) (recovery s)
  end.

(** Feeding [read_flow_meter] the same [iolhat.pd] result [n] times. *)
Fixpoint read_repeat (n : nat) (now : Q) (pd : PdResult) (s : SensorState) : SensorState :=
  match n with
  | O => s
  | S k => read_flow_meter now pd (read_repeat k now pd s)
  end.

(** [FlowMeter] of src/flow_meter.py: its configuration. *)
Record FlowMeter := mkFlowMeter {
  iol_port : nat;
  data_length : nat;
  max_retries : nat
}.

Inductive ParseError := DataTooShort | DeviceNotResponding.

(** [FlowMeter._parse_data]: [ValueError]s become [inr]. *)
Definition parse_data (fm : FlowMeter) (raw : list Byte.byte) : (Z * Z) + ParseError :=
  if Nat.ltb (List.length raw) 15 then inr DataTooShort
  else if all_zero raw then inr DeviceNotResponding
  else inl (f32_abs (be32 (slice raw 4 8)), be32 (slice raw 8 12)).

End Sensor.

(** ** Relay pulse: [pump_stop_relay] (dashboard.py) and
    [GPIOHandler.activate_relay] (src/gpio_handler.py)

    A small state-and-exception monad: the state is the level of the relay
    output ([true] = [GPIO.HIGH]); [None] is an exception in flight.  Which
    side effects raise is a parameter of the section. *)

Module Relay.

(** The side effects of a pulse that may raise, in program order. *)
Inductive Effect :=
  | LogEntry | LogUnavailable | LogBeforeHigh | OutputHigh | LogAfterHigh
  | LogAfterSleep | OutputLow | LogAfterLow | LogExcept.

Definition M (A : Type) : Type := bool -> option A * bool.

Definition ret {A} (a : A) : M A := fun lvl => (Some a, lvl).

Definition bind {A B} (m : M A) (k : A -> M B) : M B :=
  fun lvl => match m lvl with
             | (Some a, lvl') => k a lvl'
             | (None, lvl') => (None, lvl')
             end.

Notation "x <- m ;; k" := (bind m (fun x => k)) (at level 61, m at next level, right associativity).
Notation "m ;;; k" := (bind m (fun _ => k)) (at level 61, right associativity).

(** [try: body except Exception: handler] *)
Definition try_except {A} (body : M A) (handler : M A) : M A :=
  fun lvl => match body lvl with
             | (Some a, lvl') => (Some a, lvl')
             | (None, lvl') => handler lvl'
             end.

Section Pulse.
  (** [raises e] says whether side effect [e] raises on this run. *)
  Variable raises : Effect -> bool.

  (** A [with open(relay_log, 'a') as f: f.write(...)] block. *)
Definition log (e : Effect) : M unit :=
    fun lvl => if raises e then (None, lvl) else (Some tt, lvl).

  (** [GPIO.output(PUMP_STOP_RELAY_PIN, v)] *)
Definition output (e : Effect) (v : bool) : M unit :=
    fun lvl => if raises e then (None, lvl) else (Some tt, v).

  (** [time.sleep(duration)] *)
Definition sleep : M unit := ret tt.

  (** [pump_stop_relay(duration)] *)
Definition pump_stop_relay (gpio_available : bool) : M unit :=
    log LogEntry ;;;
    if negb gpio_available then log LogUnavailable
    else
      try_except
        (log LogBeforeHigh ;;;
         output OutputHigh true ;;;
         log LogAfterHigh ;;;
         sleep ;;;
         log LogAfterSleep ;;;
         output OutputLow false ;;;
         log LogAfterLow)
        (log LogExcept).

  (** [GPIOHandler._log]: its own [try/except: pass] swallows failures. *)
Definition handler_log (e : Effect) : M unit :=
    try_except (log e) (ret tt).

  (** [GPIOHandler.activate_relay(duration)]; the result is its return
      value. *)
Definition activate_relay (is_available : bool) : M bool :=
    if negb is_available then ret false
    else
      handler_log LogEntry ;;;
      try_except
        (output OutputHigh true ;;;
         handler_log LogAfterHigh ;;;
         sleep ;;;
         output OutputLow false ;;;
         handler_log LogAfterLow ;;;
         ret true)
        (handler_log LogExcept ;;; ret false).
End Pulse.

End Relay.

(** ** Session state, command dispatch and mode switching (dashboard.py) *)

Module Router.

Inductive Mode := ModeFill | ModeMix.

Definition mode_eqb (a b : Mode) : bool :=
  match a, b with
  | ModeFill, ModeFill | ModeMix, ModeMix => true
  | _, _ => false
  end.

(** The module-level globals that the command handlers read and write. *)
Record Session := mkSession {
  requested_gallons : Q;
  override_mode : bool;
  override_enabled_time : Q;
  colors_are_green : bool;
  serial_command_received : bool;
  current_mode : Mode;
  fill_requested_gallons : Q;
  mix_requested_gallons : Q;
  last_heartbeat_time : Q;
  daily_total : Q;
  season_total : Q;
  pending_fill_gallons : Q;
  pending_fill_requested : Q;
  pending_fill_shutoff_type : string
}.

(** Which screen flags are set.  [exit_confirm] stands for
    [exit_confirm_window] together with its handlers, which
    [show_exit_confirmation] sets and clears together (likewise for the
    season reset dialog).  [full_test_ov_tested] is
    [full_test_window.test_status['OV']], [None] when the window has no
    [test_status]. *)
Record UiFlags := mkUi {
  exit_confirm : bool;
  reset_season_confirm : bool;
  reminders_mode : bool;
  log_viewer_mode : bool;
  fill_history_mode : bool;
  self_test_mode : bool;
  full_test_mode : bool;
  full_test_ov_tested : option bool;
  update_mode : bool;
  menu_mode : bool
}.

(** Work handed off by a listener: callbacks queued with [root.after],
    threads started, and replies written to the socket client. *)
Inductive Action :=
  | ExitConfirmHandler | ExitCancelHandler
  | ResetSeasonConfirmHandler | ResetSeasonCancelHandler
  | DismissReminders
  | LogViewerScrollDown | LogViewerScrollUp | CloseLogViewer
  | FillHistoryScrollDown | FillHistoryScrollUp | CloseFillHistory
  | CloseSelfTest | MarkTested (name : string) | CloseFullTest
  | CloseUpdate
  | MenuNavigateDown | MenuNavigateUp | MenuSelect
  | PumpStopRelay | ShowMenu | ChangeColorsToGreen | RecordPendingFill
  | SwitchMode (m : Mode) | PulseFlowReset
  | BatchMixCommand (line : string) | MopekaCommand (line : string)
  | ReplyStatus | ReplyHistory | ReplyOK.

(** [int(line)] for the four adjustment tokens. *)
Definition adjustment_of (line : string) : option Q :=
  if String.eqb line "+1" then Some 1
  else if String.eqb line "-1" then Some (-1)
  else if String.eqb line "+10" then Some 10
  else if String.eqb line "-10" then Some (-10)
  else None.

(** The adjustment branch shared by both listeners: add, clamp at 0, reset
    the colours and store the value in the active mode's preset. *)
Definition adjust_requested (adj : Q) (s : Session) : Session :=
  let r0 := requested_gallons s + adj in
  let r := if Qltb r0 0 then 0 else r0 in
  mkSession r (override_mode s) (override_enabled_time s) false
    (serial_command_received s) (current_mode s)
    (if mode_eqb (current_mode s) ModeFill then r else fill_requested_gallons s)
    (if mode_eqb (current_mode s) ModeFill then mix_requested_gallons s else r)
    (last_heartbeat_time s) (daily_total s) (season_total s)
    (pending_fill_gallons s) (pending_fill_requested s) (pending_fill_shutoff_type s).

Definition set_heartbeat (t : Q) (s : Session) : Session :=
  mkSession (requested_gallons s) (override_mode s) (override_enabled_time s)
    (colors_are_green s) (serial_command_received s) (current_mode s)
    (fill_requested_gallons s) (mix_requested_gallons s) t
    (daily_total s) (season_total s)
    (pending_fill_gallons s) (pending_fill_requested s) (pending_fill_shutoff_type s).

(** [override_mode = not override_mode]; [override_enabled_time] is
    recorded when it becomes true. *)
Definition toggle_override (now : Q) (s : Session) : Session :=
  let o := negb (override_mode s) in
  mkSession (requested_gallons s) o
    (if o then now else override_enabled_time s)
    (colors_are_green s) (serial_command_received s) (current_mode s)
    (fill_requested_gallons s) (mix_requested_gallons s) (last_heartbeat_time s)
    (daily_total s) (season_total s)
    (pending_fill_gallons s) (pending_fill_requested s) (pending_fill_shutoff_type s).

(** Two-token handling of a confirmation dialog. *)
Definition confirm_dialog (line : string) (on_ov on_ps : Action) : list Action :=
  if String.eqb line "OV" then [on_ov]
  else if String.eqb line "PS" then [on_ps]
  else [].

(** Normal dashboard mode of [serial_listener]. *)
Definition serial_normal (now : Q) (line : string) (s : Session) : Session * list Action :=
  match adjustment_of line with
  | Some adj => (adjust_requested adj s, [])
  | None =>
      if String.eqb line "PS" then (s, [PumpStopRelay])
      else if String.eqb line "OV" then
        if Qeq_bool (requested_gallons s) 0 then (s, [ShowMenu])
        else (toggle_override now s, [])
      else if String.eqb line "TU" then (s, [ChangeColorsToGreen; RecordPendingFill])
      else if String.eqb line "MIX" then (s, [SwitchMode ModeMix])
      else if String.eqb line "FILL" then (s, [SwitchMode ModeFill])
      else (s, [])
  end.

(** One complete, stripped line in [serial_listener], at time [now]. *)
Definition serial_dispatch (now : Q) (ui : UiFlags) (line : string) (s : Session)
    : Session * list Action :=
  if String.eqb line "" then (s, [])
  else if String.eqb line "OK" then (set_heartbeat now s, [])
  else if exit_confirm ui then
    (s, confirm_dialog line ExitConfirmHandler ExitCancelHandler)
  else if reset_season_confirm ui then
    (s, confirm_dialog line ResetSeasonConfirmHandler ResetSeasonCancelHandler)
  else if reminders_mode ui then
    (s, if String.eqb line "OV" then [DismissReminders] else [])
  else if log_viewer_mode ui then
    (s, if String.eqb line "+1" then [LogViewerScrollDown]
        else if String.eqb line "-1" then [LogViewerScrollUp]
        else if String.eqb line "OV" then [CloseLogViewer] else [])
  else if fill_history_mode ui then
    (s, if String.eqb line "+1" then [FillHistoryScrollDown]
        else if String.eqb line "-1" then [FillHistoryScrollUp]
        else if String.eqb line "OV" then [CloseFillHistory] else [])
  else if self_test_mode ui then
    (s, if String.eqb line "OV" then [CloseSelfTest] else [])
  else if full_test_mode ui then
    (s, if String.eqb line "OV" then
          match full_test_ov_tested ui with
          | Some false => [MarkTested "OV"]
          | Some true => [CloseFullTest]
          | None => [CloseFullTest]
          end
        else if String.eqb line "-1" then [MarkTested "minus_1"]
        else if String.eqb line "+1" then [MarkTested "plus_1"]
        else if String.eqb line "-10" then [MarkTested "minus_10"]
        else if String.eqb line "+10" then [MarkTested "plus_10"]
        else if String.eqb line "PS" then [MarkTested "PS"]
        else [])
  else if update_mode ui then
    (s, if String.eqb line "OV" then [CloseUpdate] else [])
  else if menu_mode ui then
    (s, if String.eqb line "+1" then [MenuNavigateDown]
        else if String.eqb line "-1" then [MenuNavigateUp]
        else if String.eqb line "OV" then [MenuSelect] else [])
  else serial_normal now line s.

(** One non-empty, stripped line in [socket_command_listener].  The
    BATCHMIX and MOPEKA payloads are handed on whole. *)
Definition socket_dispatch (line : string) (s : Session) : Session * list Action :=
  if String.eqb line "STATUS" then (s, [ReplyStatus])
  else if String.eqb line "MIX" then (s, [SwitchMode ModeMix; ReplyOK])
  else if String.eqb line "RESET" then (s, [PulseFlowReset; ReplyOK])
  else if String.eqb line "FILL" then (s, [SwitchMode ModeFill; ReplyOK])
  else if String.prefix "BATCHMIX_ERROR:" line then (s, [BatchMixCommand line; ReplyOK])
  else if String.prefix "BATCHMIX:" line then (s, [BatchMixCommand line; ReplyOK])
  else if String.eqb line "MOPEKA_OFFLINE" then (s, [MopekaCommand line; ReplyOK])
  else if String.prefix "MOPEKA:" line then (s, [MopekaCommand line; ReplyOK])
  else if String.eqb line "HISTORY" then (s, [ReplyHistory])
  else match adjustment_of line with
       | Some adj => (adjust_requested adj s, [ReplyOK])
       | None =>
           if String.eqb line "PS" then (s, [PumpStopRelay; ReplyOK])
           else (s, [ReplyOK])
       end.

(** The two transports feeding the dashboard. *)
Inductive Transport := Serial | Socket.

(** A command line from either transport (the socket listener has no
    notion of screen flags and of the clock). *)
Definition dispatch (tr : Transport) (now : Q) (ui : UiFlags) (line : string)
    (s : Session) : Session * list Action :=
  match tr with
  | Serial => serial_dispatch now ui line s
  | Socket => socket_dispatch line s
  end.

(** [switch_mode(new_mode)] *)
Definition switch_mode (new_mode : Mode) (s : Session) : Session :=
  if mode_eqb new_mode (current_mode s) then s
  else
    let fill_p := if mode_eqb (current_mode s) ModeFill
                  then requested_gallons s else fill_requested_gallons s in
    let mix_p := if mode_eqb (current_mode s) ModeFill
                 then mix_requested_gallons s else requested_gallons s in
    let r := if mode_eqb new_mode ModeFill then fill_p else mix_p in
    mkSession r (override_mode s) (override_enabled_time s) false false new_mode
      fill_p mix_p (last_heartbeat_time s) (daily_total s) (season_total s)
      (pending_fill_gallons s) (pending_fill_requested s) (pending_fill_shutoff_type s).

(** [add_to_totals(gallons)] (the file write in [save_totals] catches its
    own errors). *)
Definition add_to_totals (g : Q) (s : Session) : Session :=
  mkSession (requested_gallons s) (override_mode s) (override_enabled_time s)
    (colors_are_green s) (serial_command_received s) (current_mode s)
    (fill_requested_gallons s) (mix_requested_gallons s) (last_heartbeat_time s)
    (daily_total s + g) (season_total s + g)
    (pending_fill_gallons s) (pending_fill_requested s) (pending_fill_shutoff_type s).

Definition clear_pending (s : Session) : Session :=
  mkSession (requested_gallons s) (override_mode s) (override_enabled_time s)
    (colors_are_green s) (serial_command_received s) (current_mode s)
    (fill_requested_gallons s) (mix_requested_gallons s) (last_heartbeat_time s)
    (daily_total s) (season_total s) 0 0 "".

(** [record_pending_fill()]; the fill-history log write that precedes the
    update of the totals is taken to succeed. *)
Definition record_pending_fill (s : Session) : Session :=
  if Qltb 0 (pending_fill_gallons s) then
    clear_pending (add_to_totals (pending_fill_gallons s) s)
  else s.

End Router.

(** ** Pure helpers of src/calculations.py

    [calculations.calculate_trigger_threshold] has the same body as the
    dashboard's [calculate_trigger_threshold] above, which is reused. *)

Module Calc.

(** [should_trigger_alert(actual, requested, flow, override_mode,
    already_triggered)] *)
Definition should_trigger_alert (actual_gallons requested_gallons flow_rate_l_per_s : Q)
    (override_mode already_triggered : bool) : bool :=
  if override_mode || already_triggered then false
  else
    let threshold := calculate_trigger_threshold flow_rate_l_per_s in
    Qgeb actual_gallons (requested_gallons - threshold).

(** [is_flow_stopped(flow_rate_l_per_s)] *)
Definition is_flow_stopped (flow_rate_l_per_s : Q) : bool :=
  Qltb flow_rate_l_per_s Config.FLOW_STOPPED_THRESHOLD.

(** [is_over_target(actual, requested, threshold)] *)
Definition is_over_target (actual requested threshold : Q) : bool :=
  Qltb (requested + threshold) actual.

End Calc.

(** ** [FlowMeter.read] and [calculate_coast_distance] (src/flow_meter.py) *)

Module MeterRead.

(** [calculate_coast_distance(flow_rate_l_per_s, slope, intercept)] *)
Definition calculate_coast_distance (flow_rate_l_per_s slope intercept : Q) : Q :=
  let flow_rate_gpm := flow_rate_l_per_s * (15850323 # 1000000) in
  let predicted_coast := slope * flow_rate_gpm + intercept in
  py_max predicted_coast (1 # 10).

(** [FlowMeterStatus] *)
Inductive FlowMeterStatus :=
  | CONNECTED | DISCONNECTED | NO_RESPONSE | INVALID_DATA | ERROR.

(** What one call of [_read_raw] does: raise, or return a frame. *)
Inductive Attempt := RawRaise | RawData (raw : list Byte.byte).

(** The text kept in [last_error]: a [ValueError] of [_parse_data] or a
    communication error. *)
Inductive ReadError := ParseFailed (e : Sensor.ParseError) | CommFailed.

(** [FlowMeterReading]; the floats are kept as their bit patterns (the
    default [0.0] is the pattern [0]); [error_message = ""] is [None]. *)
Record FlowMeterReading := mkReading {
  totalizer_bits : Z;
  flow_rate_bits : Z;
  raw_data : list Byte.byte;
  status : FlowMeterStatus;
  error_message : option ReadError;
  timestamp : Q
}.

(** The statistics a [FlowMeter] keeps between calls of [read]. *)
Record MeterState := mkMeterState {
  last_valid_reading : option FlowMeterReading;
  last_successful_time : Q;
  consecutive_failures : nat
}.

(** How the [for attempt in range(max_retries)] loop ended. *)
Inductive LoopResult :=
  | LoopOk (raw : list Byte.byte) (t f : Z) (sleeps : list Q)
  | LoopFailed (raw : list Byte.byte) (err : option ReadError) (sleeps : list Q).

(** The retry loop of [read], from attempt number [attempt] with [fuel]
    attempts left; [outcome k] is what [_read_raw] does on attempt [k];
    [sleeps] collects the arguments of [time.sleep] in order. *)
Fixpoint read_loop (fm : Sensor.FlowMeter) (outcome : nat -> Attempt)
    (attempt fuel : nat) (raw_data : list Byte.byte) (last_error : option ReadError)
    (delay : Q) (sleeps : list Q) : LoopResult :=
  match fuel with
  | O => LoopFailed raw_data last_error sleeps
  | S k =>
      let '(raw_data', res) :=
        match outcome attempt with
        | RawRaise => (raw_data, inr CommFailed)
        | RawData raw =>
            (raw, match Sensor.parse_data fm raw with
                  | inl tf => inl tf
                  | inr e => inr (ParseFailed e)
                  end)
        end in
      match res with
      | inl (t, f) => LoopOk raw_data' t f sleeps
      | inr err =>
          if Nat.ltb attempt (Sensor.max_retries fm - 1)
          then read_loop fm outcome (S attempt) k raw_data' (Some err) (delay * 2)
                 (sleeps ++ [delay])
          else read_loop fm outcome (S attempt) k raw_data' (Some err) delay sleeps
      end
  end.

(** [FlowMeter.read()]; [retry_delay] is the constructor argument of that
    name, [t_start] and [t_ok] the two [time.time()] calls. *)
Definition read (fm : Sensor.FlowMeter) (retry_delay t_start t_ok : Q)
    (outcome : nat -> Attempt) (st : MeterState) : FlowMeterReading * MeterState :=
  match read_loop fm outcome 0 (Sensor.max_retries fm) [] None retry_delay [] with
  | LoopOk raw t f _ =>
      let reading := mkReading t f raw CONNECTED None t_start in
      (reading, mkMeterState (Some reading) t_ok 0)
  | LoopFailed raw err _ =>
      let '(t, f) :=
        match last_valid_reading st with
        | Some lv => (totalizer_bits lv, flow_rate_bits lv)
        | None => (0%Z, 0%Z)
        end in
      (mkReading t f raw NO_RESPONSE err t_start,
       mkMeterState (last_valid_reading st) (last_successful_time st)
         (S (consecutive_failures st)))
  end.

(** The [time.sleep] calls made by one [read]. *)
Definition read_sleeps (fm : Sensor.FlowMeter) (retry_delay : Q)
    (outcome : nat -> Attempt) : list Q :=
  match read_loop fm outcome 0 (Sensor.max_retries fm) [] None retry_delay [] with
  | LoopOk _ _ _ sl => sl
  | LoopFailed _ _ sl => sl
  end.

(** Whether attempt [a] yields a frame that [_parse_data] accepts. *)
Definition attempt_parses (fm : Sensor.FlowMeter) (a : Attempt) : bool :=
  match a with
  | RawRaise => false
  | RawData raw =>
      match Sensor.parse_data fm raw with inl _ => true | inr _ => false end
  end.

End MeterRead.

(** ** [GPIOHandler.set_relay] (src/gpio_handler.py) *)

Module RelaySet.
Import Relay.

(** [set_relay(state)]: the one [GPIO.output] call is the effect
    [OutputHigh] or [OutputLow] after the level it drives; [logger.error]
    does not raise. *)
Definition set_relay (raises : Effect -> bool) (is_available state : bool) : M bool :=
  if negb is_available then ret false
  else
    try_except
      (output raises (if state then OutputHigh else OutputLow) state ;;; ret true)
      (ret false).

End RelaySet.

(** ** [DashboardState] (src/state.py)

    The mode, preset, fill and totals fields that its methods touch. *)

Module Store.

Record Store := mkStore {
  current_mode : string;
  fill_preset : Q;
  mix_preset : Q;
  requested_gallons : Q;
  colors_green : bool;
  override_enabled : bool;
  override_enabled_time : Q;
  daily : Q;
  season : Q
}.

(** [get_requested_gallons()] *)
Definition get_requested_gallons (st : Store) : Q :=
  if String.eqb (current_mode st) "fill" then fill_preset st else mix_preset st.

(** [set_requested_gallons(value)] *)
Definition set_requested_gallons (value : Q) (st : Store) : Store :=
  let is_fill := String.eqb (current_mode st) "fill" in
  mkStore (current_mode st)
    (if is_fill then value else fill_preset st)
    (if is_fill then mix_preset st else value)
    value (colors_green st) (override_enabled st) (override_enabled_time st)
    (daily st) (season st).

(** [adjust_requested(delta)]: the new value and the new state. *)
Definition adjust_requested (delta : Q) (st : Store) : Q * Store :=
  let new_value := py_max 0 (requested_gallons st + delta) in
  (new_value, set_requested_gallons new_value st).

(** [switch_mode(new_mode)] *)
Definition switch_mode (new_mode : string) (st : Store) : Store :=
  if negb (String.eqb new_mode "fill" || String.eqb new_mode "mix") then st
  else if String.eqb new_mode (current_mode st) then st
  else
    let cur_fill := String.eqb (current_mode st) "fill" in
    let fill_p := if cur_fill then requested_gallons st else fill_preset st in
    let mix_p := if cur_fill then mix_preset st else requested_gallons st in
    let r := if String.eqb new_mode "fill" then fill_p else mix_p in
    mkStore new_mode fill_p mix_p r false (override_enabled st)
      (override_enabled_time st) (daily st) (season st).

(** [set_override(enabled)] at time [now] *)
Definition set_override (enabled : bool) (now : Q) (st : Store) : Store :=
  mkStore (current_mode st) (fill_preset st) (mix_preset st) (requested_gallons st)
    (colors_green st) enabled
    (if enabled then now else override_enabled_time st) (daily st) (season st).

(** [add_to_totals(gallons)] *)
Definition add_to_totals (gallons : Q) (st : Store) : Store :=
  mkStore (current_mode st) (fill_preset st) (mix_preset st) (requested_gallons st)
    (colors_green st) (override_enabled st) (override_enabled_time st)
    (daily st + gallons) (season st + gallons).

(** The mode string the dashboard stores in [current_mode]. *)
Definition mode_name (m : Router.Mode) : string :=
  match m with
  | Router.ModeFill => "fill"
  | Router.ModeMix => "mix"
  end.

(** The dashboard's module globals seen as a [DashboardState]. *)
Definition store_of_session (s : Router.Session) : Store :=
  mkStore (mode_name (Router.current_mode s)) (Router.fill_requested_gallons s)
    (Router.mix_requested_gallons s) (Router.requested_gallons s)
    (Router.colors_are_green s) (Router.override_mode s)
    (Router.override_enabled_time s) (Router.daily_total s) (Router.season_total s).

End Store.

(** ** Menu navigation: [menu_navigate_up] / [menu_navigate_down]
    (dashboard.py); Python's [%] by a positive number is [Z.modulo]. *)

Module Menu.

Definition menu_navigate_up (menu_selected_index : Z) : Z :=
  Z.modulo (menu_selected_index - 1) 10.

Definition menu_navigate_down (menu_selected_index : Z) : Z :=
  Z.modulo (menu_selected_index + 1) 10.

End Menu.

(** ** Command-level views used by the facts below *)

Module RouterViews.
Import Router.



End RouterViews.

(** [read_flow_meter] applied to a sequence of clock readings and
    [iolhat.pd] results. *)
Definition read_seq (s : Sensor.SensorState) (rs : list (Q * Sensor.PdResult))
    : Sensor.SensorState :=
  fold_left (fun s tp => Sensor.read_flow_meter (fst tp) (snd tp) s) rs s.

(** ** Concrete inputs used by the examples, witnesses and counterexamples *)

Module Inputs.
Import Fill Sensor Router.

(** The reference scenario: 60 gallons requested, 59.8 read, 1 L/s
    (threshold about 0.26 gal), override off, meter connected: the first
    tick starts the relay, the next tick with the same reading does not. *)
Definition s_approach : DashState :=
  mkDash 60 false 0 false true false 0 0 "" 1 0.

(** A tick in which override is on and the last flow reading shows flow,
    but no successful read happened for 100 s (meter disconnected). *)
Definition s_override_disconnected : DashState :=
  mkDash 60 true 0 false true false 0 0 "" 1 0.

(** A flow start while the alert flag from the previous cycle is still set
    and the reading is already within the trigger threshold. *)
Definition s_flow_start_alert_set : DashState :=
  mkDash 60 false 0 true false true 12 55 "Auto" 1 0.

(** A valid (non-zero) 15-byte frame and a freshly started sensor link. *)
Definition frame15 : list Byte.byte := repeat Byte.x01 15.

Definition sensor0 : SensorState :=
  mkSensor 0 0 false None 0 0%nat None (mkRecovery false 0 0%nat).

(** A flow meter configured for 20-byte frames. *)
Definition meter20 : FlowMeter := mkFlowMeter 2 20 3.

(** A rate limiter whose last power cycle ended at time 0. *)
Definition recovery0 : Recovery := mkRecovery false 0 0%nat.

(** A run of a pulse in which only the log write right after the output
    was driven HIGH fails (e.g. the log file cannot be opened). *)
Definition log_after_high_fails (e : Relay.Effect) : bool :=
  match e with
  | Relay.LogAfterHigh => true
  | _ => false
  end.

(** The screen flags with only the exit-confirmation dialog showing. *)
Definition ui_exit_pending : UiFlags :=
  mkUi true false false false false false false None false false.

Definition session0 : Session :=
  mkSession 60 false 0 false false ModeFill 60 40 0 0 0 0 0 "".

(** The mode that is not active. *)
Definition other_mode (m : Mode) : Mode :=
  match m with
  | ModeFill => ModeMix
  | ModeMix => ModeFill
  end.

(** A session holding a pending 12-gallon fill. *)
Definition session_pending : Session :=
  mkSession 60 false 0 false false ModeFill 60 40 0 100 500 12 60 "Auto".

End Inputs.

(** ** Facts about the float comparisons *)

Lemma Qltb_iff a b : Qltb a b = true <-> a < b.
Proof.
  unfold Qltb. rewrite negb_true_iff. split; intro H.
  - destruct (Qlt_le_dec a b) as [Hl|Hl]; [exact Hl|].
    apply Qle_bool_iff in Hl. congruence.
  - destruct (Qle_bool b a) eqn:E; [|reflexivity].
    apply Qle_bool_iff in E. lra.
Qed.

Lemma Qltb_false_iff a b : Qltb a b = false <-> b <= a.
Proof.
  unfold Qltb. rewrite negb_false_iff. apply Qle_bool_iff.
Qed.

Lemma Qle_bool_false_iff a b : Qle_bool a b = false <-> b < a.
Proof.
  split; intro H.
  - destruct (Qlt_le_dec b a) as [Hl|Hl]; [exact Hl|].
    apply Qle_bool_iff in Hl. congruence.
  - destruct (Qle_bool a b) eqn:E; [|reflexivity].
    apply Qle_bool_iff in E. lra.
Qed.

(** ** Frame lemmas of the fill controller *)

Module FillFacts.
Import Fill.

Lemma flow_transitions_frame actual s :
  let s' := flow_transitions actual s in
  requested_gallons s' = requested_gallons s /\
  override_mode s' = override_mode s /\
  override_enabled_time s' = override_enabled_time s /\
  last_alert_triggered s' = last_alert_triggered s /\
  last_flow_rate s' = last_flow_rate s /\
  last_successful_read_time s' = last_successful_read_time s.
Proof.
  unfold flow_transitions.
  destruct (was_flowing s) eqn:W, (is_flowing s); simpl; rewrite ?W; simpl; repeat split.
Qed.

Lemma override_supervision_frame now s :
  let s' := override_supervision now s in
  requested_gallons s' = requested_gallons s /\
  last_alert_triggered s' = last_alert_triggered s /\
  last_flow_rate s' = last_flow_rate s /\
  last_successful_read_time s' = last_successful_read_time s.
Proof.
  unfold override_supervision.
  destruct (override_mode s && negb (flow_meter_disconnected now s)); [|repeat split].
  destruct (Qltb (last_flow_rate s) Config.FLOW_STOPPED_THRESHOLD);
    [destruct (Qltb 60 (now - override_enabled_time s))|]; repeat split.
Qed.

Lemma auto_alert_keeps_override now actual s :
  override_mode (fst (auto_alert now actual s)) = override_mode s.
Proof.
  unfold auto_alert.
  destruct (_ && _); [reflexivity|].
  destruct (Qltb _ _); reflexivity.
Qed.

Lemma auto_alert_fired_implies now actual s :
  snd (auto_alert now actual s) = true ->
  override_mode s = false /\ flow_meter_disconnected now s = false /\
  requested_gallons s - calculate_trigger_threshold (last_flow_rate s) <= actual /\
  last_alert_triggered s = false.
Proof.
  unfold auto_alert.
  destruct (override_mode s), (flow_meter_disconnected now s),
    (Qgeb actual _) eqn:E, (last_alert_triggered s); simpl;
    try (destruct (Qltb _ _); discriminate); try discriminate.
  intros _. unfold Qgeb in E. apply Qle_bool_iff in E. repeat split; assumption.
Qed.

Lemma update_dashboard_no_refire now actual s :
  last_alert_triggered s = true -> snd (update_dashboard now actual s) = false.
Proof.
  intro HA. unfold update_dashboard.
  destruct (flow_transitions_frame actual s) as (_ & _ & _ & A1 & _ & _).
  destruct (override_supervision_frame now (flow_transitions actual s)) as (_ & A2 & _ & _).
  unfold auto_alert. rewrite A2, A1, HA.
  rewrite andb_false_r. simpl. destruct (Qltb _ _); reflexivity.
Qed.

Lemma auto_alert_frame now actual s :
  let s' := fst (auto_alert now actual s) in
  override_mode s' = override_mode s /\
  override_enabled_time s' = override_enabled_time s /\
  colors_are_green s' = colors_are_green s /\
  pending_fill_gallons s' = pending_fill_gallons s /\
  pending_fill_requested s' = pending_fill_requested s /\
  pending_fill_shutoff_type s' = pending_fill_shutoff_type s.
Proof.
  unfold auto_alert.
  destruct (_ && _); [repeat split|].
  destruct (Qltb _ _); repeat split.
Qed.

Lemma override_supervision_pending now s :
  let s' := override_supervision now s in
  colors_are_green s' = colors_are_green s /\
  pending_fill_gallons s' = pending_fill_gallons s /\
  pending_fill_requested s' = pending_fill_requested s /\
  pending_fill_shutoff_type s' = pending_fill_shutoff_type s.
Proof.
  unfold override_supervision.
  destruct (override_mode s && negb (flow_meter_disconnected now s)); [|repeat split].
  destruct (Qltb (last_flow_rate s) Config.FLOW_STOPPED_THRESHOLD);
    [destruct (Qltb 60 (now - override_enabled_time s))|]; repeat split.
Qed.

(** The override fields after a tick are those computed by the
    supervision step from the state before the tick. *)
Lemma update_dashboard_override now actual s :
  let s' := fst (update_dashboard now actual s) in
  override_mode s' = override_mode (override_supervision now s) /\
  override_enabled_time s' = override_enabled_time (override_supervision now s).
Proof.
  unfold update_dashboard.
  destruct (auto_alert_frame now actual (override_supervision now (flow_transitions actual s)))
    as (O & T & _).
  simpl in O, T |- *. rewrite O, T.
  destruct (flow_transitions_frame actual s) as (_ & O1 & T1 & _ & F1 & L1).
  unfold override_supervision, flow_meter_disconnected.
  rewrite O1, T1, F1, L1.
  destruct (override_mode s && _); [|auto].
  destruct (Qltb (last_flow_rate s) _); [destruct (Qltb 60 _)|]; simpl; auto.
Qed.

(** The alert flag after a tick: set when it fires, kept while
    [actual >= requested - threshold], cleared below. *)
Lemma update_dashboard_alert_flag now actual s :
  let '(s', fired) := update_dashboard now actual s in
  last_alert_triggered s' = true <->
  (last_alert_triggered s = true \/ fired = true) /\
  requested_gallons s - calculate_trigger_threshold (last_flow_rate s) <= actual.
Proof.
  unfold update_dashboard.
  set (s1 := flow_transitions actual s).
  set (s2 := override_supervision now s1).
  destruct (flow_transitions_frame actual s) as (R1 & _ & _ & A1 & F1 & _).
  destruct (override_supervision_frame now s1) as (R2 & A2 & F2 & _).
  fold s1 in R1, A1, F1. fold s2 in R2, A2, F2.
  unfold auto_alert. rewrite R2, A2, F2, R1, A1, F1.
  set (thr := requested_gallons s - calculate_trigger_threshold (last_flow_rate s)).
  destruct (Qgeb actual thr) eqn:G; unfold Qgeb in G;
    [apply Qle_bool_iff in G | apply Qle_bool_false_iff in G];
  destruct (Qltb actual thr) eqn:E;
    [apply Qltb_iff in E | apply Qltb_false_iff in E | apply Qltb_iff in E | apply Qltb_false_iff in E];
  destruct (override_mode s2), (flow_meter_disconnected now s2),
    (last_alert_triggered s) eqn:A;
  simpl; rewrite ?A2, ?A1, ?A; split; intros; try lra; intuition (try discriminate; try lra).
Qed.

Lemma tick_low_connected k s :
  low_connected k = true ->
  override_mode (tick s k) =
    (override_mode s && negb (Qltb 60 (t_now k - override_enabled_time s))) /\
  override_enabled_time (tick s k) = override_enabled_time s.
Proof.
  unfold low_connected. rewrite andb_true_iff, negb_true_iff. intros (HL & HC).
  unfold tick.
  destruct (update_dashboard_override (t_now k) (t_actual k)
              (set_reading (t_flow_rate k) (t_read_time k) s)) as (O & T).
  rewrite O, T. unfold override_supervision, flow_meter_disconnected. simpl.
  rewrite HC, HL. simpl.
  destruct (override_mode s) eqn:Os; simpl; [|auto].
  destruct (Qltb 60 (t_now k - override_enabled_time s)); simpl; auto.
Qed.

Lemma run_low_connected ks s :
  forallb low_connected ks = true ->
  override_mode (run_ticks s ks) = true ->
  override_mode s = true /\ override_enabled_time (run_ticks s ks) = override_enabled_time s.
Proof.
  revert s. induction ks as [|k ks IH]; intros s HL HO; [auto|].
  simpl in HL. apply andb_true_iff in HL as (Hk & HL).
  change (run_ticks s (k :: ks)) with (run_ticks (tick s k) ks) in HO |- *.
  destruct (IH (tick s k) HL HO) as (Ok & Tk).
  destruct (tick_low_connected k s Hk) as (O & T).
  rewrite O in Ok. apply andb_true_iff in Ok as (Os & _).
  split; [exact Os|]. rewrite Tk, T. reflexivity.
Qed.

Lemma flow_start_pending actual s :
  was_flowing s = false -> is_flowing s = true ->
  let s' := flow_transitions actual s in
  pending_fill_gallons s' = 0 /\ pending_fill_requested s' = 0 /\
  pending_fill_shutoff_type s' = ""%string /\ colors_are_green s' = false.
Proof.
  intros W F. unfold flow_transitions. rewrite W, F. simpl. rewrite W. simpl.
  repeat split.
Qed.

End FillFacts.

(** ** Facts about the sensor link *)

Module SensorFacts.
Import Sensor.

Lemma bytes_eqb_refl (raw : list Byte.byte) : bytes_eqb raw raw = true.
Proof.
  unfold bytes_eqb. destruct (list_eq_dec Byte.byte_eq_dec raw raw); congruence.
Qed.

(** Reading [raw] when the previous frame is [raw] itself. *)
Lemma read_same_frame now raw s :
  Nat.leb 15 (List.length raw) = true -> all_zero raw = false ->
  last_raw_data s = Some raw ->
  let s' := read_flow_meter now (PdData raw) s in
  consecutive_identical_raw s' = S (consecutive_identical_raw s) /\
  last_raw_data s' = Some raw /\
  (error_kind s' = Some Stale <-> STALE_RAW_THRESHOLD <= S (consecutive_identical_raw s))%nat.
Proof.
  intros HL HZ HR. unfold read_flow_meter. rewrite HL, HZ, HR.
  unfold raw_eq_last. rewrite bytes_eqb_refl. cbn [andb].
  destruct (Nat.leb STALE_RAW_THRESHOLD (S (consecutive_identical_raw s))) eqn:E;
    cbn [consecutive_identical_raw last_raw_data error_kind].
  - apply Nat.leb_le in E. repeat split; auto.
  - apply Nat.leb_gt in E. repeat split; try discriminate; lia.
Qed.

(** Reading a valid frame that differs from the previous one. *)
Lemma read_new_frame now raw s :
  Nat.leb 15 (List.length raw) = true -> all_zero raw = false ->
  raw_eq_last raw (last_raw_data s) = false ->
  let s' := read_flow_meter now (PdData raw) s in
  consecutive_identical_raw s' = 0%nat /\ last_raw_data s' = Some raw /\
  error_kind s' = None.
Proof.
  intros HL HZ HR. unfold read_flow_meter. rewrite HL, HZ, HR. simpl. auto.
Qed.

Lemma try_started now r :
  cycles_started (try_iol_power_cycle now r) =
    if negb (iol_power_cycle_in_progress r) &&
       Qle_bool Config.IOL_RECONNECT_INTERVAL (now - last_power_cycle_time r)
    then S (cycles_started r) else cycles_started r.
Proof.
  unfold try_iol_power_cycle.
  destruct (iol_power_cycle_in_progress r); [reflexivity|]. simpl.
  unfold Qltb. destruct (Qle_bool _ _); reflexivity.
Qed.

(** After a request at time [t1], until the next request: either a cycle
    is running or the last cycle ended at or after [t1]. *)
Definition blocked_since (t1 : Q) (r : Recovery) : Prop :=
  iol_power_cycle_in_progress r = true \/ t1 <= last_power_cycle_time r.

Definition finish_after (t1 : Q) (e : RecEvent) : bool :=
  match e with
  | Request _ => false
  | Finish t _ _ _ => Qle_bool t1 t
  end.

Lemma finishes_keep_started t1 r es :
  forallb (finish_after t1) es = true ->
  cycles_started (rec_run r es) = cycles_started r /\
  (blocked_since t1 r -> blocked_since t1 (rec_run r es)).
Proof.
  revert r. induction es as [|e es IH]; intros r H; [simpl; auto|].
  simpl in H. apply andb_true_iff in H as (He & Hes).
  destruct e as [t|t off on u]; [discriminate|].
  change (rec_run r (Finish t off on u :: es))
    with (rec_run (fst (iol_power_cycle t off on u r)) es).
  destruct (IH (fst (iol_power_cycle t off on u r)) Hes) as (C & B).
  rewrite C. simpl. split; [reflexivity|].
  intros _. apply B. right. simpl. apply Qle_bool_iff. exact He.
Qed.

Lemma blocked_request t1 t2 r :
  blocked_since t1 r -> t2 - t1 < Config.IOL_RECONNECT_INTERVAL ->
  cycles_started (try_iol_power_cycle t2 r) = cycles_started r.
Proof.
  intros B G. rewrite try_started.
  destruct B as [B|B]; [rewrite B; reflexivity|].
  destruct (iol_power_cycle_in_progress r); [reflexivity|]. simpl.
  destruct (Qle_bool _ _) eqn:E; [|reflexivity].
  apply Qle_bool_iff in E. unfold Config.IOL_RECONNECT_INTERVAL in *. lra.
Qed.

End SensorFacts.

(** ** Claims about the fill controller *)

Import Inputs.

Import Fill.

Example auto_alert_fires_once :
  snd (update_dashboard 1 (598 # 10) s_approach) = true /\
  snd (update_dashboard 1 (598 # 10) (fst (update_dashboard 1 (598 # 10) s_approach))) = false.
Proof. split; vm_compute; reflexivity. Qed.

(** C1. On every tick the auto-alert relay thread is started exactly when
    override is off (its value at the decision point, i.e. after this tick's
    supervision, which is also its value after the tick), the flow meter is
    not disconnected, [actual >= requested - threshold(flow_rate)] and the
    alert has not already fired; when it fires the flag is set so that a
    further tick with the same reading does not fire again; and whenever
    [actual < requested - threshold] the flag is cleared (re-armed). *)
Theorem auto_alert_decision (now now2 actual : Q) (s : DashState) :
  let '(s', fired) := update_dashboard now actual s in
  (fired = true <->
     override_mode s' = false /\ flow_meter_disconnected now s = false /\
     requested_gallons s - calculate_trigger_threshold (last_flow_rate s) <= actual /\
     last_alert_triggered s = false) /\
  (fired = true ->
     last_alert_triggered s' = true /\ snd (update_dashboard now2 actual s') = false) /\
  (actual < requested_gallons s - calculate_trigger_threshold (last_flow_rate s) ->
     last_alert_triggered s' = false).
Proof.
  destruct (update_dashboard now actual s) as [s' fired] eqn:U.
  assert (Hmain : (fired = true <->
     override_mode s' = false /\ flow_meter_disconnected now s = false /\
     requested_gallons s - calculate_trigger_threshold (last_flow_rate s) <= actual /\
     last_alert_triggered s = false) /\
    (fired = true -> last_alert_triggered s' = true) /\
    (actual < requested_gallons s - calculate_trigger_threshold (last_flow_rate s) ->
     last_alert_triggered s' = false)).
  { revert U. unfold update_dashboard.
    set (s1 := flow_transitions actual s).
    set (s2 := override_supervision now s1).
    destruct (FillFacts.flow_transitions_frame actual s) as (R1 & O1 & T1 & A1 & F1 & L1).
    destruct (FillFacts.override_supervision_frame now s1) as (R2 & A2 & F2 & L2).
    fold s1 in R1, O1, T1, A1, F1, L1. fold s2 in R2, A2, F2, L2.
    assert (HD : flow_meter_disconnected now s2 = flow_meter_disconnected now s)
      by (unfold flow_meter_disconnected; rewrite L2, L1; reflexivity).
    unfold auto_alert. rewrite R2, A2, F2, HD, R1, A1, F1.
    set (thr := requested_gallons s - calculate_trigger_threshold (last_flow_rate s)).
    destruct (override_mode s2) eqn:O, (flow_meter_disconnected now s) eqn:D,
      (Qgeb actual thr) eqn:G, (last_alert_triggered s) eqn:A; simpl;
    unfold Qgeb in G;
    first [ apply Qle_bool_iff in G | apply Qle_bool_false_iff in G ];
    try (destruct (Qltb actual thr) eqn:E;
         [apply Qltb_iff in E | apply Qltb_false_iff in E]);
    intro U; injection U as <- <-; simpl;
    repeat split; intros; try discriminate; try lra; try reflexivity; auto;
    try (destruct H as (H1 & H2 & H3 & H4); simpl in H1; rewrite ?O in H1;
         first [discriminate | lra]). }
  destruct Hmain as (H1 & H2 & H3).
  split; [exact H1|]. split; [|exact H3].
  intro F. split; [exact (H2 F)|].
  apply FillFacts.update_dashboard_no_refire. exact (H2 F).
Qed.

(** C3 (counterexample). A tick on which flow is detected while override is
    on does not reset the override reference time when the flow meter is
    disconnected: here it stays 0 although the tick runs at time 100. *)
Lemma override_reset_skipped_when_disconnected :
  override_mode s_override_disconnected = true /\
  is_flowing s_override_disconnected = true /\
  flow_meter_disconnected 100 s_override_disconnected = true /\
  override_enabled_time (fst (update_dashboard 100 10 s_override_disconnected)) = 0 /\
  ~ (forall now actual s, override_mode s = true -> is_flowing s = true ->
       override_enabled_time (fst (update_dashboard now actual s)) = now).
Proof.
  assert (E : override_enabled_time (fst (update_dashboard 100 10 s_override_disconnected)) = 0)
    by (vm_compute; reflexivity).
  split; [reflexivity|]. split; [vm_compute; reflexivity|].
  split; [vm_compute; reflexivity|]. split; [exact E|].
  intro H. specialize (H 100 10 s_override_disconnected eq_refl eq_refl).
  rewrite E in H. discriminate.
Qed.

(** C3 (amended). Override supervision: on a tick with the flow meter
    disconnected, override and its reference time are left unchanged; on a
    tick with the meter connected, override on and flow detected, override
    stays on and the reference time is reset to the tick's time; and if,
    from a tick at which override is already on, every tick has the meter
    connected and flow below the stopped threshold, and the last of them
    comes more than 60 s after the first, override is off at the end. *)
Theorem override_supervision_connected :
  (forall now actual s, flow_meter_disconnected now s = true ->
     override_mode (fst (update_dashboard now actual s)) = override_mode s /\
     override_enabled_time (fst (update_dashboard now actual s)) = override_enabled_time s) /\
  (forall now actual s, override_mode s = true ->
     flow_meter_disconnected now s = false -> is_flowing s = true ->
     override_mode (fst (update_dashboard now actual s)) = true /\
     override_enabled_time (fst (update_dashboard now actual s)) = now) /\
  (forall s k1 ks kl, override_mode s = true ->
     override_enabled_time s <= t_now k1 ->
     forallb low_connected (k1 :: ks ++ [kl]) = true ->
     60 < t_now kl - t_now k1 ->
     override_mode (run_ticks s (k1 :: ks ++ [kl])) = false).
Proof.
  split; [|split].
  - intros now actual s D.
    destruct (FillFacts.update_dashboard_override now actual s) as (O & T).
    rewrite O, T. unfold override_supervision. rewrite D, andb_false_r. auto.
  - intros now actual s Os D F.
    destruct (FillFacts.update_dashboard_override now actual s) as (O & T).
    rewrite O, T. unfold override_supervision. rewrite Os, D. simpl.
    unfold is_flowing, Qgeb in F. unfold Qltb. rewrite F. simpl. auto.
  - intros s k1 ks kl Os Te HL Hgap.
    unfold run_ticks. rewrite app_comm_cons, fold_left_app.
    change (fold_left tick (k1 :: ks) s) with (run_ticks s (k1 :: ks)).
    change (fold_left tick [kl] (run_ticks s (k1 :: ks)))
      with (tick (run_ticks s (k1 :: ks)) kl).
    rewrite app_comm_cons, forallb_app in HL. simpl in HL.
    apply andb_true_iff in HL as (HL & Hkl). rewrite andb_true_r in Hkl.
    destruct (override_mode (run_ticks s (k1 :: ks))) eqn:Or.
    + destruct (FillFacts.run_low_connected (k1 :: ks) s HL Or) as (_ & Tr).
      destruct (FillFacts.tick_low_connected kl (run_ticks s (k1 :: ks)) Hkl) as (O & _).
      rewrite O, Or, Tr.
      assert (G : Qltb 60 (t_now kl - override_enabled_time s) = true)
        by (apply Qltb_iff; lra).
      rewrite G. reflexivity.
    + destruct (FillFacts.tick_low_connected kl (run_ticks s (k1 :: ks)) Hkl) as (O & _).
      rewrite O, Or. reflexivity.
Qed.

(** Witness of [override_supervision_connected]: override enabled at time
    0, no flow from time 10 to time 80 with the meter connected. *)
Lemma override_supervision_connected_witness :
  override_mode (run_ticks s_override_disconnected
                   (mkTick 10 0 0 10 :: [] ++ [mkTick 80 0 0 80])) = false.
Proof.
  apply (proj2 (proj2 override_supervision_connected)
           s_override_disconnected (mkTick 10 0 0 10) [] (mkTick 80 0 0 80)).
  - reflexivity.
  - vm_compute. discriminate.
  - vm_compute. reflexivity.
  - vm_compute. reflexivity.
Defined.

(** C8 (counterexample). On a flow-start tick ([was_flowing] false,
    [is_flowing] true) the alert flag is not cleared: here it is still set
    after the tick. *)
Lemma flow_start_keeps_alert_flag :
  was_flowing s_flow_start_alert_set = false /\
  is_flowing s_flow_start_alert_set = true /\
  last_alert_triggered s_flow_start_alert_set = true /\
  last_alert_triggered (fst (update_dashboard 0 60 s_flow_start_alert_set)) = true.
Proof.
  split; [reflexivity|]. split; [vm_compute; reflexivity|].
  split; [reflexivity|]. vm_compute. reflexivity.
Qed.

(** C8 (amended). On a flow-start tick the controller clears the pending
    fill (gallons 0, requested 0, empty shutoff type) and the colours flag;
    the alert flag is not touched by the transition: after the tick it is
    set exactly when it was set or the alert fired on this tick, and
    [actual >= requested - threshold]. *)
Theorem flow_start_transition (now actual : Q) (s : DashState) :
  was_flowing s = false -> is_flowing s = true ->
  let '(s', fired) := update_dashboard now actual s in
  pending_fill_gallons s' = 0 /\ pending_fill_requested s' = 0 /\
  pending_fill_shutoff_type s' = ""%string /\ colors_are_green s' = false /\
  (last_alert_triggered s' = true <->
     (last_alert_triggered s = true \/ fired = true) /\
     requested_gallons s - calculate_trigger_threshold (last_flow_rate s) <= actual).
Proof.
  intros W F.
  pose proof (FillFacts.update_dashboard_alert_flag now actual s) as HA.
  destruct (update_dashboard now actual s) as [s' fired] eqn:U.
  destruct (FillFacts.flow_start_pending actual s W F) as (P1 & P2 & P3 & C).
  unfold update_dashboard in U.
  destruct (FillFacts.override_supervision_pending now (flow_transitions actual s))
    as (C2 & Q1 & Q2 & Q3).
  destruct (FillFacts.auto_alert_frame now actual
              (override_supervision now (flow_transitions actual s)))
    as (_ & _ & C3 & R1 & R2 & R3).
  rewrite U in C3, R1, R2, R3. simpl in C3, R1, R2, R3.
  rewrite C3, R1, R2, R3, C2, Q1, Q2, Q3.
  refine (conj _ (conj _ (conj _ (conj _ HA)))); assumption.
Qed.

(** Witness of [flow_start_transition] on the state above. *)
Lemma flow_start_transition_witness :
  let '(s', fired) := update_dashboard 0 60 s_flow_start_alert_set in
  pending_fill_gallons s' = 0 /\ pending_fill_requested s' = 0 /\
  pending_fill_shutoff_type s' = ""%string /\ colors_are_green s' = false /\
  (last_alert_triggered s' = true <->
     (last_alert_triggered s_flow_start_alert_set = true \/ fired = true) /\
     requested_gallons s_flow_start_alert_set
       - calculate_trigger_threshold (last_flow_rate s_flow_start_alert_set) <= 60).
Proof.
  apply flow_start_transition; [reflexivity | vm_compute; reflexivity].
Defined.

(** ** Claims about the sensor link *)

Import Sensor.

(** C5 (counterexample). Feeding the same frame to a fresh link: the 25th
    identical receipt does not raise [Stale]; only the 26th does. *)
Lemma stale_not_raised_at_25th_receipt :
  error_kind (read_repeat 24 0 (PdData frame15) sensor0) = None /\
  error_kind (read_repeat 25 0 (PdData frame15) sensor0) = None /\
  error_kind (read_repeat 26 0 (PdData frame15) sensor0) = Some Stale.
Proof.
  split; [vm_compute; reflexivity|]. split; vm_compute; reflexivity.
Qed.

(** C5 (amended). Starting from a previous frame that differs (or none),
    the first receipt of a valid frame resets the identical-frame counter
    to 0, and after [m + 1] consecutive receipts of that frame the counter
    is [m]; [Stale] is raised exactly when [m >= 25], i.e. from the 26th
    consecutive receipt (the 25th repeat) on, never before. *)
Theorem stale_after_25_repeats (now : Q) (raw : list Byte.byte) (s : SensorState) (m : nat) :
  Nat.leb 15 (List.length raw) = true -> all_zero raw = false ->
  raw_eq_last raw (last_raw_data s) = false ->
  let s' := read_repeat (S m) now (PdData raw) s in
  consecutive_identical_raw s' = m /\ last_raw_data s' = Some raw /\
  (error_kind s' = Some Stale <-> (STALE_RAW_THRESHOLD <= m)%nat).
Proof.
  intros HL HZ HR. cbv zeta. induction m as [|m IH].
  - change (read_repeat 1 now (PdData raw) s) with (read_flow_meter now (PdData raw) s).
    destruct (SensorFacts.read_new_frame now raw s HL HZ HR) as (C & R & E).
    rewrite C, R, E. repeat split; try discriminate.
    unfold STALE_RAW_THRESHOLD. lia.
  - destruct IH as (C & R & _).
    change (read_repeat (S (S m)) now (PdData raw) s)
      with (read_flow_meter now (PdData raw) (read_repeat (S m) now (PdData raw) s)).
    destruct (SensorFacts.read_same_frame now raw _ HL HZ R) as (C' & R' & E').
    rewrite C in C', E'. auto.
Qed.

(** Witness of [stale_after_25_repeats]: 26 receipts of [frame15]. *)
Lemma stale_after_25_repeats_witness :
  let s' := read_repeat 26 0 (PdData frame15) sensor0 in
  consecutive_identical_raw s' = 25%nat /\ last_raw_data s' = Some frame15 /\
  (error_kind s' = Some Stale <-> (STALE_RAW_THRESHOLD <= 25)%nat).
Proof.
  apply (stale_after_25_repeats 0 frame15 sensor0 25); reflexivity.
Defined.

(** C7 (counterexample). With a configured expected length of 20, a
    15-byte frame is shorter than expected but is not rejected as short. *)
Lemma short_frame_ignores_configured_length :
  (List.length frame15 < data_length meter20)%nat /\
  parse_data meter20 frame15 <> inr DataTooShort.
Proof.
  split; [vm_compute; lia|]. vm_compute. discriminate.
Qed.

(** C7 (amended). Decoding fails as too short exactly when the frame has
    fewer than 15 bytes (the fixed frame length of the protocol, also the
    default [data_length] and [DATA_LENGTH]), whatever the frame's content
    and whatever the configured expected length; [read_flow_meter] records
    [ShortFrame] under the same condition. *)
Theorem short_frame_iff_below_15 (fm : FlowMeter) (raw : list Byte.byte) :
  (parse_data fm raw = inr DataTooShort <-> (List.length raw < 15)%nat) /\
  (forall now s, error_kind (read_flow_meter now (PdData raw) s) = Some ShortFrame <->
                 (List.length raw < 15)%nat).
Proof.
  split.
  - unfold parse_data. destruct (Nat.ltb (List.length raw) 15) eqn:E.
    + apply Nat.ltb_lt in E. split; auto.
    + apply Nat.ltb_ge in E. split; [|lia].
      destruct (all_zero raw); discriminate.
  - intros now s. unfold read_flow_meter.
    destruct (Nat.leb 15 (List.length raw)) eqn:E.
    + apply Nat.leb_le in E. split; [|lia]. intro H. exfalso.
      destruct (all_zero raw); [discriminate|].
      destruct (_ && _); discriminate.
    + apply Nat.leb_gt in E. split; auto.
Qed.

(** C6 (counterexample). A request exactly 15 s after the last attempt
    starts a power cycle, although the elapsed time does not exceed the
    15 s minimum interval. *)
Lemma power_cycle_at_exact_interval :
  cycles_started (try_iol_power_cycle 15 recovery0) = 1%nat /\
  ~ (15 - last_power_cycle_time recovery0 > Config.IOL_RECONNECT_INTERVAL).
Proof.
  split; [vm_compute; reflexivity|]. unfold Config.IOL_RECONNECT_INTERVAL. simpl. lra.
Qed.

(** C6 (amended). A request starts a power cycle exactly when none is in
    progress and at least the minimum interval (15 s) has elapsed since the
    last attempt ended, and then marks one as in progress; every exit of
    the power-cycle thread (completion, early return after a failed power
    transition, or an exception) clears the in-progress flag; and of two
    requests less than 15 s apart, with only thread completions in between,
    at most one starts a power cycle, exactly one when the first is
    eligible. *)
Theorem power_cycle_rate_limited :
  (forall now r,
     cycles_started (try_iol_power_cycle now r) = S (cycles_started r) <->
     iol_power_cycle_in_progress r = false /\
     Config.IOL_RECONNECT_INTERVAL <= now - last_power_cycle_time r) /\
  (forall now r,
     cycles_started (try_iol_power_cycle now r) = S (cycles_started r) ->
     iol_power_cycle_in_progress (try_iol_power_cycle now r) = true) /\
  (forall t_end off on u r,
     iol_power_cycle_in_progress (fst (iol_power_cycle t_end off on u r)) = false) /\
  (forall r t1 t2 es,
     forallb (SensorFacts.finish_after t1) es = true ->
     t2 - t1 < Config.IOL_RECONNECT_INTERVAL ->
     (cycles_started (rec_run r (Request t1 :: es ++ [Request t2])) <= S (cycles_started r))%nat /\
     (iol_power_cycle_in_progress r = false ->
      Config.IOL_RECONNECT_INTERVAL <= t1 - last_power_cycle_time r ->
      cycles_started (rec_run r (Request t1 :: es ++ [Request t2])) = S (cycles_started r))).
Proof.
  split; [|split; [|split]].
  - intros now r. rewrite SensorFacts.try_started.
    destruct (iol_power_cycle_in_progress r); simpl.
    + split; [lia|]. intros (H & _). discriminate.
    + destruct (Qle_bool Config.IOL_RECONNECT_INTERVAL (now - last_power_cycle_time r)) eqn:E.
      * apply Qle_bool_iff in E. split; auto.
      * apply Qle_bool_false_iff in E. split; [lia|]. intros (_ & H). lra.
  - intros now r. unfold try_iol_power_cycle.
    destruct (iol_power_cycle_in_progress r) eqn:P; [intros; exact P|].
    destruct (Qltb (now - last_power_cycle_time r) Config.IOL_RECONNECT_INTERVAL);
      simpl; [intro H; exfalso; lia | auto].
  - intros. reflexivity.
  - intros r t1 t2 es Hes G.
    unfold rec_run. rewrite app_comm_cons, fold_left_app.
    change (fold_left rec_step (Request t1 :: es) r)
      with (rec_run (try_iol_power_cycle t1 r) es).
    change (fold_left rec_step [Request t2] (rec_run (try_iol_power_cycle t1 r) es))
      with (try_iol_power_cycle t2 (rec_run (try_iol_power_cycle t1 r) es)).
    destruct (SensorFacts.finishes_keep_started t1 (try_iol_power_cycle t1 r) es Hes)
      as (C & B).
    set (r1 := try_iol_power_cycle t1 r) in *.
    assert (Hblocked : SensorFacts.blocked_since t1 r1 ->
              cycles_started (try_iol_power_cycle t2 (rec_run r1 es)) = cycles_started r1).
    { intro Hb. rewrite (SensorFacts.blocked_request t1 t2 _ (B Hb) G). exact C. }
    pose proof (SensorFacts.try_started t1 r) as S1. fold r1 in S1.
    destruct (iol_power_cycle_in_progress r) eqn:P.
    + assert (Hr1 : r1 = r) by (unfold r1, try_iol_power_cycle; rewrite P; reflexivity).
      rewrite Hblocked by (left; rewrite Hr1; exact P). rewrite Hr1.
      split; [lia|]. discriminate.
    + simpl in S1.
      destruct (Qle_bool Config.IOL_RECONNECT_INTERVAL (t1 - last_power_cycle_time r)) eqn:E.
      * assert (Hp : iol_power_cycle_in_progress r1 = true).
        { unfold r1, try_iol_power_cycle. rewrite P.
          unfold Qltb. rewrite E. reflexivity. }
        rewrite Hblocked by (left; exact Hp). rewrite S1. split; auto.
      * split.
        -- rewrite SensorFacts.try_started, C, S1.
           destruct (_ && _); lia.
        -- intros _ H. apply Qle_bool_iff in H. congruence.
Qed.

(** Witness of [power_cycle_rate_limited]: requests at 20 s and 30 s, the
    cycle started by the first finishing at 22 s. *)
Lemma power_cycle_rate_limited_witness :
  cycles_started (rec_run recovery0
    (Request 20 :: [Finish 22 HatOk HatOk false] ++ [Request 30])) = 1%nat.
Proof.
  apply (proj2 (proj2 (proj2 (proj2 power_cycle_rate_limited)) recovery0 20 30
                  [Finish 22 HatOk HatOk false] eq_refl ltac:(vm_compute; reflexivity))).
  - reflexivity.
  - vm_compute. discriminate.
Defined.

(** ** Claims about the relay pulse *)

(** C2 (code bug). [pump_stop_relay] with GPIO available, starting from the
    inactive level: when the log write after [GPIO.output(pin, HIGH)]
    raises, the [except] clause logs the error and the function returns
    normally with the relay output still HIGH; [GPIO.LOW] is never
    attempted. *)
Theorem pump_stop_relay_left_high :
  Relay.pump_stop_relay log_after_high_fails true false = (Some tt, true).
Proof. vm_compute. reflexivity. Qed.

(** The sibling [GPIOHandler.activate_relay] swallows every log failure in
    [_log], so when only logging fails it always ends at the inactive
    level and reports success. *)
Lemma activate_relay_releases (raises : Relay.Effect -> bool) (lvl : bool) :
  raises Relay.OutputHigh = false -> raises Relay.OutputLow = false ->
  Relay.activate_relay raises true lvl = (Some true, false).
Proof.
  intros H1 H2. unfold Relay.activate_relay, Relay.handler_log, Relay.try_except,
    Relay.bind, Relay.log, Relay.output, Relay.sleep, Relay.ret. simpl.
  destruct (raises Relay.LogEntry); rewrite H1;
  destruct (raises Relay.LogAfterHigh); rewrite H2;
  destruct (raises Relay.LogAfterLow); reflexivity.
Qed.

(** ** Claims about command dispatch, mode switching and totals *)

Import Router.

(** C4 (counterexample). With the exit-confirmation dialog pending, a [+1]
    arriving on the local socket adds one gallon to [requested_gallons],
    and an [OV] arriving there invokes no handler (only the [OK] reply). *)
Lemma socket_bypasses_exit_dialog :
  exit_confirm ui_exit_pending = true /\
  requested_gallons (fst (dispatch Socket 0 ui_exit_pending "+1" session0)) = 61 /\
  dispatch Socket 0 ui_exit_pending "OV" session0 = (session0, [ReplyOK]).
Proof.
  split; [reflexivity|]. split; vm_compute; reflexivity.
Qed.

(** C4 (amended). For lines from the serial transport, while the
    exit-confirmation dialog is pending every line other than the [OK]
    heartbeat leaves the session unchanged, [+1] queues no action and [OV]
    queues exactly the confirm handler; lines from the local socket are
    not subject to this dispatch: [+1] adjusts [requested_gallons] as in
    normal mode and [OV] only gets the [OK] reply. *)
Theorem exit_dialog_dispatch (now : Q) (ui : UiFlags) (s : Session) :
  exit_confirm ui = true ->
  (forall line, line <> "OK"%string -> fst (dispatch Serial now ui line s) = s) /\
  dispatch Serial now ui "+1" s = (s, []) /\
  dispatch Serial now ui "OV" s = (s, [ExitConfirmHandler]) /\
  dispatch Socket now ui "+1" s = (adjust_requested 1 s, [ReplyOK]) /\
  dispatch Socket now ui "OV" s = (s, [ReplyOK]).
Proof.
  intros E. split; [|split; [|split; [|split]]].
  - intros line NOK. simpl. unfold serial_dispatch.
    destruct (String.eqb line "") ; [reflexivity|].
    destruct (String.eqb line "OK") eqn:K.
    + apply String.eqb_eq in K. contradiction.
    + rewrite E. reflexivity.
  - simpl. unfold serial_dispatch. simpl. rewrite E. reflexivity.
  - simpl. unfold serial_dispatch. simpl. rewrite E. reflexivity.
  - reflexivity.
  - reflexivity.
Qed.

(** Witness of [exit_dialog_dispatch]. *)
Lemma exit_dialog_dispatch_witness :
  (forall line, line <> "OK"%string ->
     fst (dispatch Serial 0 ui_exit_pending line session0) = session0) /\
  dispatch Serial 0 ui_exit_pending "+1" session0 = (session0, []) /\
  dispatch Serial 0 ui_exit_pending "OV" session0 = (session0, [ExitConfirmHandler]) /\
  dispatch Socket 0 ui_exit_pending "+1" session0 = (adjust_requested 1 session0, [ReplyOK]) /\
  dispatch Socket 0 ui_exit_pending "OV" session0 = (session0, [ReplyOK]).
Proof.
  apply exit_dialog_dispatch. reflexivity.
Defined.

(** C9. Switching to the other mode and back restores
    [requested_gallons] (the outgoing value is saved in its preset and
    reloaded on return), and switching to the active mode changes nothing. *)
Theorem switch_mode_round_trip (s : Session) :
  requested_gallons (switch_mode (current_mode s) (switch_mode (other_mode (current_mode s)) s))
    = requested_gallons s /\
  switch_mode (current_mode s) s = s.
Proof.
  unfold switch_mode. destruct (current_mode s); simpl; split; reflexivity.
Qed.

(** C10. [record_pending_fill] with no positive pending amount changes no
    state at all; with a positive pending amount it adds exactly that
    amount to the daily and the season totals and clears the three pending
    fields, leaving everything else as it was. *)
Theorem record_pending_fill_spec :
  (forall s, pending_fill_gallons s <= 0 -> record_pending_fill s = s) /\
  (forall s, 0 < pending_fill_gallons s ->
     let s' := record_pending_fill s in
     daily_total s' = daily_total s + pending_fill_gallons s /\
     season_total s' = season_total s + pending_fill_gallons s /\
     pending_fill_gallons s' = 0 /\ pending_fill_requested s' = 0 /\
     pending_fill_shutoff_type s' = ""%string /\
     requested_gallons s' = requested_gallons s /\
     current_mode s' = current_mode s /\
     fill_requested_gallons s' = fill_requested_gallons s /\
     mix_requested_gallons s' = mix_requested_gallons s).
Proof.
  split.
  - intros s H. unfold record_pending_fill.
    assert (E : Qltb 0 (pending_fill_gallons s) = false) by (apply Qltb_false_iff; exact H).
    rewrite E. reflexivity.
  - intros s H. unfold record_pending_fill.
    assert (E : Qltb 0 (pending_fill_gallons s) = true) by (apply Qltb_iff; exact H).
    rewrite E. simpl. repeat split.
Qed.

(** Witness of [record_pending_fill_spec]: nothing pending, and a pending
    12-gallon fill. *)
Lemma record_pending_fill_spec_witness :
  record_pending_fill session0 = session0 /\
  daily_total (record_pending_fill session_pending) = 100 + 12.
Proof.
  split.
  - apply (proj1 record_pending_fill_spec). vm_compute. discriminate.
  - apply (proj2 record_pending_fill_spec). reflexivity.
Defined.

(** ** Further properties of the code *)

(** *** The trigger threshold and the alert decision *)

Module ThresholdFacts.

Lemma py_max_ge_r (a b : Q) : b <= py_max a b.
Proof.
  unfold py_max. destruct (Qltb a b) eqn:E.
  - apply Qle_refl.
  - apply Qltb_false_iff in E. exact E.
Qed.

Lemma py_max_mono_l (a1 a2 b : Q) : a1 <= a2 -> py_max a1 b <= py_max a2 b.
Proof.
  intros H. unfold py_max.
  destruct (Qltb a1 b) eqn:E1; destruct (Qltb a2 b) eqn:E2;
    [apply Qltb_iff in E1; apply Qltb_iff in E2
    |apply Qltb_iff in E1; apply Qltb_false_iff in E2
    |apply Qltb_false_iff in E1; apply Qltb_iff in E2
    |apply Qltb_false_iff in E1; apply Qltb_false_iff in E2]; lra.
Qed.

(** The shutoff threshold of the dashboard (and of calculations.py) is
    never below its 0.1-gallon floor, whatever the flow reading, including
    negative or zero readings. *)
Theorem trigger_threshold_floor (flow_rate_l_per_s : Q) :
  1 # 10 <= calculate_trigger_threshold flow_rate_l_per_s.
Proof. unfold calculate_trigger_threshold. apply py_max_ge_r. Qed.

(** The threshold never decreases when the flow rate grows: a faster flow
    always triggers the relay at least as early. *)
Theorem trigger_threshold_monotone (r1 r2 : Q) :
  r1 <= r2 -> calculate_trigger_threshold r1 <= calculate_trigger_threshold r2.
Proof.
  intros H. unfold calculate_trigger_threshold. apply py_max_mono_l.
  unfold Config.FLOW_CURVE_SLOPE, Config.LITERS_PER_SEC_TO_GPM, Config.FLOW_CURVE_INTERCEPT.
  lra.
Qed.

Lemma trigger_threshold_monotone_witness :
  0 <= 1 /\ calculate_trigger_threshold 0 <= calculate_trigger_threshold 1.
Proof. split; [lra | apply (trigger_threshold_monotone 0 1); lra]. Defined.

(** Up to 2/3 L/s (about 10.6 GPM) the calibration curve predicts less
    than 0.1 gallon of coast, so the threshold is exactly its floor. *)
Theorem trigger_threshold_flat (flow_rate_l_per_s : Q) :
  flow_rate_l_per_s <= 2 # 3 -> calculate_trigger_threshold flow_rate_l_per_s = 1 # 10.
Proof.
  intros H. unfold calculate_trigger_threshold, py_max.
  replace (Qltb _ _) with true; [reflexivity|].
  symmetry. apply Qltb_iff.
  unfold Config.FLOW_CURVE_SLOPE, Config.LITERS_PER_SEC_TO_GPM, Config.FLOW_CURVE_INTERCEPT.
  lra.
Qed.

Lemma trigger_threshold_flat_witness :
  (1 # 2) <= 2 # 3 /\ calculate_trigger_threshold (1 # 2) = 1 # 10.
Proof. split; [lra | apply (trigger_threshold_flat (1 # 2)); lra]. Defined.

(** The auto-alert of [update_dashboard] starts the relay exactly when the
    meter is connected and [calculations.should_trigger_alert] says so for
    the controller's actual gallons, requested gallons, last flow rate,
    override flag and alert flag. *)
Theorem auto_alert_matches_should_trigger (now actual : Q) (s : Fill.DashState) :
  snd (Fill.auto_alert now actual s) =
  negb (Fill.flow_meter_disconnected now s) &&
  Calc.should_trigger_alert actual (Fill.requested_gallons s) (Fill.last_flow_rate s)
    (Fill.override_mode s) (Fill.last_alert_triggered s).
Proof.
  unfold Fill.auto_alert, Calc.should_trigger_alert.
  destruct (Fill.override_mode s), (Fill.flow_meter_disconnected now s),
    (Fill.last_alert_triggered s),
    (Qgeb actual (Fill.requested_gallons s - calculate_trigger_threshold (Fill.last_flow_rate s)));
    simpl;
    try (destruct (Qltb actual (Fill.requested_gallons s - calculate_trigger_threshold (Fill.last_flow_rate s))));
    reflexivity.
Qed.

(** [calculate_coast_distance] of src/flow_meter.py, for any calibration
    with a non-negative slope, is at least 0.1 gallon and grows with the
    flow rate. *)
Theorem coast_distance_floor_monotone (slope intercept r1 r2 : Q) :
  0 <= slope -> r1 <= r2 ->
  1 # 10 <= MeterRead.calculate_coast_distance r1 slope intercept /\
  MeterRead.calculate_coast_distance r1 slope intercept <=
  MeterRead.calculate_coast_distance r2 slope intercept.
Proof.
  intros Hs H. unfold MeterRead.calculate_coast_distance. split.
  - apply py_max_ge_r.
  - apply py_max_mono_l. apply Qplus_le_compat; [|apply Qle_refl].
    rewrite !(Qmult_comm slope).
    apply Qmult_le_compat_r; [|exact Hs].
    apply Qmult_le_compat_r; [exact H|]. lra.
Qed.

Lemma coast_distance_floor_monotone_witness :
  0 <= Config.FLOW_CURVE_SLOPE /\ 0 <= 1 /\
  MeterRead.calculate_coast_distance 0 Config.FLOW_CURVE_SLOPE Config.FLOW_CURVE_INTERCEPT <=
  MeterRead.calculate_coast_distance 1 Config.FLOW_CURVE_SLOPE Config.FLOW_CURVE_INTERCEPT.
Proof.
  split; [unfold Config.FLOW_CURVE_SLOPE; lra|]. split; [lra|].
  apply (coast_distance_floor_monotone Config.FLOW_CURVE_SLOPE Config.FLOW_CURVE_INTERCEPT 0 1);
    [unfold Config.FLOW_CURVE_SLOPE|]; lra.
Defined.

End ThresholdFacts.

(** *** [FlowMeter.read]: retries, statistics and backoff *)

Module MeterReadFacts.
Import MeterRead.

Definition loop_ok (r : LoopResult) : bool :=
  match r with LoopOk _ _ _ _ => true | LoopFailed _ _ _ => false end.

Definition loop_sleeps (r : LoopResult) : list Q :=
  match r with LoopOk _ _ _ sl => sl | LoopFailed _ _ sl => sl end.

Lemma read_loop_ok fm outcome fuel : forall attempt raw err delay sleeps,
  loop_ok (read_loop fm outcome attempt fuel raw err delay sleeps) =
  existsb (fun k => attempt_parses fm (outcome k)) (seq attempt fuel).
Proof.
  induction fuel as [|k IH]; intros attempt raw err delay sleeps; [reflexivity|].
  simpl. unfold attempt_parses at 1.
  destruct (outcome attempt) as [|r].
  - simpl. destruct (Nat.ltb _ _); apply IH.
  - destruct (Sensor.parse_data fm r) as [[t f]|e]; simpl; [reflexivity|].
    destruct (Nat.ltb _ _); apply IH.
Qed.

Lemma read_loop_first fm outcome k raw t f fuel : forall attempt raw0 err delay sleeps,
  (attempt <= k < attempt + fuel)%nat ->
  (forall j, (attempt <= j < k)%nat -> attempt_parses fm (outcome j) = false) ->
  outcome k = RawData raw -> Sensor.parse_data fm raw = inl (t, f) ->
  exists sl, read_loop fm outcome attempt fuel raw0 err delay sleeps = LoopOk raw t f sl.
Proof.
  induction fuel as [|n IH]; intros attempt raw0 err delay sleeps Hk Hj Ho Hp; [lia|].
  simpl. destruct (Nat.eq_dec attempt k) as [Heq|Hne].
  - subst attempt. rewrite Ho, Hp. eexists. reflexivity.
  - assert (Hf : attempt_parses fm (outcome attempt) = false) by (apply Hj; lia).
    unfold attempt_parses in Hf.
    destruct (outcome attempt) as [|r].
    + destruct (Nat.ltb _ _); (apply IH; [lia | intros j0 Hj0; apply Hj; lia | exact Ho | exact Hp]).
    + destruct (Sensor.parse_data fm r) as [[t' f']|e]; [discriminate|].
      destruct (Nat.ltb _ _); (apply IH; [lia | intros j0 Hj0; apply Hj; lia | exact Ho | exact Hp]).
Qed.

Lemma read_loop_backoff fm outcome d fuel : forall attempt raw err sleeps,
  (attempt + fuel = Sensor.max_retries fm)%nat -> (0 < fuel)%nat ->
  existsb (fun k => attempt_parses fm (outcome k)) (seq attempt fuel) = false ->
  sleeps = map (fun i => Nat.iter i (fun x => x * 2) d) (seq 0 attempt) ->
  loop_sleeps (read_loop fm outcome attempt fuel raw err
                 (Nat.iter attempt (fun x => x * 2) d) sleeps) =
  map (fun i => Nat.iter i (fun x => x * 2) d) (seq 0 (Sensor.max_retries fm - 1)).
Proof.
  induction fuel as [|n IH]; intros attempt raw err sleeps Hn Hf Hx Hs; [lia|].
  simpl in Hx. apply orb_false_iff in Hx. destruct Hx as [Ha Hx].
  simpl. unfold attempt_parses in Ha.
  assert (Hstep : forall raw' err',
    loop_sleeps
      (if Nat.ltb attempt (Sensor.max_retries fm - 1)
       then read_loop fm outcome (S attempt) n raw' (Some err')
              (Nat.iter attempt (fun x => x * 2) d * 2)
              (sleeps ++ [Nat.iter attempt (fun x => x * 2) d])
       else read_loop fm outcome (S attempt) n raw' (Some err')
              (Nat.iter attempt (fun x => x * 2) d) sleeps) =
    map (fun i => Nat.iter i (fun x => x * 2) d) (seq 0 (Sensor.max_retries fm - 1))).
  { intros raw' err'. destruct (Nat.ltb attempt (Sensor.max_retries fm - 1)) eqn:E.
    - apply Nat.ltb_lt in E.
      change (Nat.iter attempt (fun x => x * 2) d * 2) with
        (Nat.iter (S attempt) (fun x => x * 2) d).
      apply IH; [lia|lia|exact Hx|].
      rewrite seq_S, map_app, Hs. reflexivity.
    - apply Nat.ltb_ge in E.
      destruct n as [|n']; [|lia].
      simpl. rewrite Hs. f_equal. f_equal. lia. }
  destruct (outcome attempt) as [|r]; [apply Hstep|].
  destruct (Sensor.parse_data fm r) as [[t f]|e]; [discriminate|apply Hstep].
Qed.

(** [read] reports [CONNECTED] exactly when one of its [max_retries]
    attempts returns a frame that [_parse_data] accepts; with
    [max_retries = 0] it never reads and always fails. *)
Theorem read_connected_iff fm retry_delay t_start t_ok outcome st :
  status (fst (read fm retry_delay t_start t_ok outcome st)) = CONNECTED <->
  existsb (fun k => attempt_parses fm (outcome k)) (seq 0 (Sensor.max_retries fm)) = true.
Proof.
  rewrite <- (read_loop_ok fm outcome (Sensor.max_retries fm) 0 [] None retry_delay []).
  unfold read.
  destruct (read_loop fm outcome 0 (Sensor.max_retries fm) [] None retry_delay []);
    simpl; [tauto|].
  destruct (last_valid_reading st); simpl; split; discriminate.
Qed.

(** When attempt [k] is the first whose frame parses, [read] returns that
    frame's values with [CONNECTED], caches the reading, records the
    success time and resets the failure count. *)
Theorem read_first_success fm retry_delay t_start t_ok outcome st k raw t f :
  (k < Sensor.max_retries fm)%nat ->
  (forall j, (j < k)%nat -> attempt_parses fm (outcome j) = false) ->
  outcome k = RawData raw -> Sensor.parse_data fm raw = inl (t, f) ->
  let '(rd, st') := read fm retry_delay t_start t_ok outcome st in
  totalizer_bits rd = t /\ flow_rate_bits rd = f /\ raw_data rd = raw /\
  status rd = CONNECTED /\ error_message rd = None /\
  st' = mkMeterState (Some rd) t_ok 0.
Proof.
  intros Hk Hj Ho Hp.
  destruct (read_loop_first fm outcome k raw t f (Sensor.max_retries fm) 0 [] None
              retry_delay []) as [sl E]; [lia| intros j Hj'; apply Hj; lia | exact Ho | exact Hp |].
  unfold read. rewrite E. repeat split.
Qed.

Definition outcome_retry (k : nat) : Attempt :=
  match k with O => RawRaise | S _ => RawData Inputs.frame15 end.

Lemma read_first_success_witness :
  let '(rd, st') := read Inputs.meter20 (1 # 10) 0 1 outcome_retry (mkMeterState None 0 4) in
  totalizer_bits rd = 16843009%Z /\ flow_rate_bits rd = 16843009%Z /\
  raw_data rd = Inputs.frame15 /\ status rd = CONNECTED /\ error_message rd = None /\
  st' = mkMeterState (Some rd) 1 0.
Proof.
  apply (read_first_success Inputs.meter20 (1 # 10) 0 1 outcome_retry
           (mkMeterState None 0 4) 1 Inputs.frame15 16843009%Z 16843009%Z).
  - simpl. lia.
  - intros j Hj. destruct j; [reflexivity|lia].
  - reflexivity.
  - vm_compute. reflexivity.
Defined.

(** When no attempt parses, [read] returns [NO_RESPONSE], bumps the
    failure count by one, keeps the cached reading and the last success
    time, and hands back the cached values when there are any. *)
Theorem read_all_failed fm retry_delay t_start t_ok outcome st :
  existsb (fun k => attempt_parses fm (outcome k)) (seq 0 (Sensor.max_retries fm)) = false ->
  let '(rd, st') := read fm retry_delay t_start t_ok outcome st in
  status rd = NO_RESPONSE /\
  consecutive_failures st' = S (consecutive_failures st) /\
  last_valid_reading st' = last_valid_reading st /\
  last_successful_time st' = last_successful_time st /\
  (forall lv, last_valid_reading st = Some lv ->
     totalizer_bits rd = totalizer_bits lv /\ flow_rate_bits rd = flow_rate_bits lv).
Proof.
  intros H.
  rewrite <- (read_loop_ok fm outcome (Sensor.max_retries fm) 0 [] None retry_delay []) in H.
  unfold read.
  destruct (read_loop fm outcome 0 (Sensor.max_retries fm) [] None retry_delay []);
    [discriminate|].
  destruct (last_valid_reading st) as [lv0|] eqn:E; simpl;
    (split; [reflexivity|]); (split; [reflexivity|]); (split; [reflexivity|]);
    (split; [reflexivity|]); intros lv Hlv; [|discriminate].
  injection Hlv as <-. split; reflexivity.
Qed.

Definition outcome_dead (k : nat) : Attempt := RawRaise.

Definition cached_reading : FlowMeterReading :=
  mkReading 7 9 Inputs.frame15 CONNECTED None 0.

Lemma read_all_failed_witness :
  let '(rd, st') := read Inputs.meter20 (1 # 10) 5 6 outcome_dead
                      (mkMeterState (Some cached_reading) 0 2) in
  status rd = NO_RESPONSE /\ consecutive_failures st' = 3%nat /\
  last_valid_reading st' = Some cached_reading /\ last_successful_time st' = 0 /\
  (forall lv, Some cached_reading = Some lv ->
     totalizer_bits rd = totalizer_bits lv /\ flow_rate_bits rd = flow_rate_bits lv).
Proof.
  apply (read_all_failed Inputs.meter20 (1 # 10) 5 6 outcome_dead
           (mkMeterState (Some cached_reading) 0 2)).
  vm_compute. reflexivity.
Defined.

(** When every attempt fails, [read] sleeps between attempts but not after
    the last one, and each delay is the initial [retry_delay] doubled once
    per earlier sleep: [retry_delay], [2 retry_delay], [4 retry_delay], ... *)
Theorem read_backoff fm retry_delay outcome :
  existsb (fun k => attempt_parses fm (outcome k)) (seq 0 (Sensor.max_retries fm)) = false ->
  read_sleeps fm retry_delay outcome =
  map (fun i => Nat.iter i (fun x => x * 2) retry_delay) (seq 0 (Sensor.max_retries fm - 1)).
Proof.
  intros H. unfold read_sleeps.
  destruct (Sensor.max_retries fm) as [|n] eqn:En.
  - reflexivity.
  - rewrite <- En in H |- *.
    change (match read_loop fm outcome 0 (Sensor.max_retries fm) [] None retry_delay [] with
            | LoopOk _ _ _ sl => sl | LoopFailed _ _ sl => sl end)
      with (loop_sleeps (read_loop fm outcome 0 (Sensor.max_retries fm) [] None
                           (Nat.iter 0 (fun x => x * 2) retry_delay) [])).
    apply read_loop_backoff; [lia|lia|exact H|reflexivity].
Qed.

Lemma read_backoff_witness :
  read_sleeps Inputs.meter20 (1 # 10) outcome_dead =
  map (fun i => Nat.iter i (fun x => x * 2) (1 # 10)) (seq 0 2).
Proof. apply (read_backoff Inputs.meter20 (1 # 10) outcome_dead). vm_compute. reflexivity. Defined.

End MeterReadFacts.

(** *** [GPIOHandler.set_relay] *)

Module RelaySetFacts.

(** [set_relay] never lets an exception escape; it reports [True] only
    when the relay pin has been driven to the requested level, and
    otherwise (GPIO unavailable, or [GPIO.output] raising) leaves the pin
    as it was. *)
Theorem set_relay_reports (raises : Relay.Effect -> bool) (is_available state lvl : bool) :
  match RelaySet.set_relay raises is_available state lvl with
  | (Some true, lvl') => lvl' = state
  | (Some false, lvl') => lvl' = lvl
  | (None, _) => False
  end.
Proof.
  unfold RelaySet.set_relay, Relay.try_except, Relay.bind, Relay.output, Relay.ret.
  destruct is_available, state; simpl; try reflexivity;
    [destruct (raises Relay.OutputHigh) | destruct (raises Relay.OutputLow)]; reflexivity.
Qed.

End RelaySetFacts.

(** *** [DashboardState] of src/state.py *)

Module StoreFacts.
Import Store.
Local Open Scope string_scope.

(** Setting the requested gallons and reading them back gives the value
    set, whatever the mode string. *)
Theorem store_set_get (value : Q) (st : Store) :
  get_requested_gallons (set_requested_gallons value st) = value /\
  requested_gallons (set_requested_gallons value st) = value.
Proof.
  unfold get_requested_gallons, set_requested_gallons. simpl.
  destruct (String.eqb (current_mode st) "fill"); split; reflexivity.
Qed.

(** [adjust_requested(delta)] never produces a negative value, adds
    [delta] when the sum is not negative, and returns exactly what
    [get_requested_gallons] reads afterwards. *)
Theorem store_adjust_requested (delta : Q) (st : Store) :
  let '(new_value, st') := adjust_requested delta st in
  0 <= new_value /\
  (0 <= requested_gallons st + delta -> new_value == requested_gallons st + delta) /\
  requested_gallons st' = new_value /\ get_requested_gallons st' = new_value.
Proof.
  unfold adjust_requested.
  destruct (store_set_get (py_max 0 (requested_gallons st + delta)) st) as [H1 H2].
  cbv beta iota. rewrite H1, H2.
  unfold py_max. destruct (Qltb 0 (requested_gallons st + delta)) eqn:E;
    [apply Qltb_iff in E | apply Qltb_false_iff in E];
    (split; [lra | split; [intros; lra | split; reflexivity]]).
Qed.

(** [switch_mode] ignores anything but ["fill"] and ["mix"], and ignores
    the mode already active. *)
Theorem store_switch_mode_noop (new_mode : string) (st : Store) :
  (String.eqb new_mode "fill" || String.eqb new_mode "mix") = false \/
  String.eqb new_mode (current_mode st) = true ->
  switch_mode new_mode st = st.
Proof.
  unfold switch_mode. intros [H|H].
  - rewrite H. reflexivity.
  - destruct (String.eqb new_mode "fill" || String.eqb new_mode "mix"); [|reflexivity].
    rewrite H. reflexivity.
Qed.

Definition store0 : Store := mkStore "fill" 60 40 55 true false 0 10 100.

Lemma store_switch_mode_noop_witness :
  ((String.eqb "pump" "fill" || String.eqb "pump" "mix") = false \/
   String.eqb "pump" (current_mode store0) = true) /\
  switch_mode "pump" store0 = store0.
Proof.
  split; [left; reflexivity|].
  apply (store_switch_mode_noop "pump" store0). left. reflexivity.
Defined.

(** Switching to the other mode and back restores the mode and the
    requested gallons and leaves the other mode's preset untouched; the
    active preset now holds the requested gallons and the colours are
    reset. *)
Theorem store_switch_mode_round_trip (other : string) (st : Store) :
  (current_mode st = "fill" /\ other = "mix") \/
  (current_mode st = "mix" /\ other = "fill") ->
  switch_mode (current_mode st) (switch_mode other st) =
  mkStore (current_mode st)
    (if String.eqb (current_mode st) "fill" then requested_gallons st else fill_preset st)
    (if String.eqb (current_mode st) "fill" then mix_preset st else requested_gallons st)
    (requested_gallons st) false (override_enabled st) (override_enabled_time st)
    (daily st) (season st).
Proof.
  destruct st as [m fp mp r c o ot d se]; simpl.
  intros [[Hm Ho]|[Hm Ho]]; subst m other; reflexivity.
Qed.

Lemma store_switch_mode_round_trip_witness :
  ((current_mode store0 = "fill" /\ "mix"%string = "mix") \/
   (current_mode store0 = "mix" /\ "mix"%string = "fill")) /\
  switch_mode "fill" (switch_mode "mix" store0) =
  mkStore "fill" 55 40 55 false false 0 10 100.
Proof.
  split; [left; split; reflexivity|].
  apply (store_switch_mode_round_trip "mix" store0). left. split; reflexivity.
Defined.

(** The dashboard's own [switch_mode] and [DashboardState.switch_mode]
    agree: on the mode, presets, requested gallons, colours, override
    and totals, switching the dashboard globals gives the same store as
    switching the corresponding [DashboardState]. *)
Theorem switch_mode_agrees_with_store (m : Router.Mode) (s : Router.Session) :
  store_of_session (Router.switch_mode m s) =
  switch_mode (mode_name m) (store_of_session s).
Proof.
  destruct s as [r o ot c sc cm fp mp hb d se pg pr pt].
  destruct m, cm; reflexivity.
Qed.

(** The adjustment branch of the dashboard's listeners and
    [DashboardState.adjust_requested] compute the same new requested value
    and store it in the same mode's preset; only the dashboard resets the
    green colours. *)
Theorem adjust_agrees_with_store (adj : Q) (s : Router.Session) :
  let s' := Router.adjust_requested adj s in
  let '(v, st') := adjust_requested adj (store_of_session s) in
  Router.requested_gallons s' == v /\
  get_requested_gallons (store_of_session s') = Router.requested_gallons s' /\
  get_requested_gallons st' = v /\
  current_mode (store_of_session s') = current_mode st' /\
  Router.colors_are_green s' = false /\ colors_green st' = Router.colors_are_green s.
Proof.
  destruct s as [r o ot c sc cm fp mp hb d se pg pr pt].
  unfold Router.adjust_requested, adjust_requested, py_max. simpl.
  destruct (Qltb (r + adj) 0) eqn:E1; destruct (Qltb 0 (r + adj)) eqn:E2;
    [apply Qltb_iff in E1; apply Qltb_iff in E2; lra| | |];
    destruct cm; simpl;
    refine (conj _ (conj eq_refl (conj eq_refl (conj eq_refl (conj eq_refl eq_refl)))));
    try apply Qeq_refl;
    apply Qltb_false_iff in E1; apply Qltb_false_iff in E2; lra.
Qed.

End StoreFacts.

(** *** Command dispatch *)

Module DispatchFacts.
Import Router RouterViews.

Lemma adjust_requested_nonneg (adj : Q) (s : Session) :
  0 <= requested_gallons (adjust_requested adj s).
Proof.
  unfold adjust_requested. cbn [requested_gallons].
  destruct (Qltb (requested_gallons s + adj) 0) eqn:E; [apply Qle_refl|].
  apply Qltb_false_iff in E. exact E.
Qed.

Ltac split_ifs :=
  repeat match goal with
         | |- context [if ?c then _ else _] => destruct c
         end.

(** No command line from either transport makes the requested gallons
    negative. *)
Theorem dispatch_requested_nonneg (tr : Transport) (now : Q) (ui : UiFlags)
    (line : string) (s : Session) :
  0 <= requested_gallons s ->
  0 <= requested_gallons (fst (dispatch tr now ui line s)).
Proof.
  intros H. destruct tr; simpl.
  - unfold serial_dispatch, serial_normal.
    destruct (adjustment_of line) as [adj|]; split_ifs; cbn [fst];
      first [ apply adjust_requested_nonneg
            | unfold set_heartbeat, toggle_override; cbn [requested_gallons]; exact H ].
  - unfold socket_dispatch.
    destruct (adjustment_of line) as [adj|]; split_ifs; cbn [fst];
      first [ apply adjust_requested_nonneg | exact H ].
Qed.

Definition ui_none : UiFlags :=
  mkUi false false false false false false false None false false.

Lemma dispatch_requested_nonneg_witness :
  0 <= requested_gallons Inputs.session0 /\
  0 <= requested_gallons (fst (dispatch Serial 0 ui_none "-10" Inputs.session0)).
Proof.
  split; [vm_compute; discriminate|].
  apply (dispatch_requested_nonneg Serial 0 ui_none "-10" Inputs.session0).
  vm_compute. discriminate.
Defined.




(** [record_pending_fill] counts a fill once: a second call finds nothing
    pending and changes nothing. *)
Theorem record_pending_fill_idempotent (s : Session) :
  record_pending_fill (record_pending_fill s) = record_pending_fill s.
Proof.
  unfold record_pending_fill.
  destruct (Qltb 0 (pending_fill_gallons s)) eqn:E; [reflexivity|].
  cbv iota. rewrite E. reflexivity.
Qed.

End DispatchFacts.

(** *** Menu navigation *)

Module MenuFacts.
Import Menu.

(** Moving the menu selection up or down always lands on one of the ten
    items, from any starting index. *)
Theorem menu_navigate_in_range (i : Z) :
  (0 <= menu_navigate_up i < 10)%Z /\ (0 <= menu_navigate_down i < 10)%Z.
Proof.
  unfold menu_navigate_up, menu_navigate_down.
  split; apply Z.mod_pos_bound; lia.
Qed.

(** Up then down, or down then up, returns to the item selected before
    (wrapping around at both ends). *)
Theorem menu_navigate_inverse (i : Z) :
  (0 <= i < 10)%Z ->
  menu_navigate_down (menu_navigate_up i) = i /\
  menu_navigate_up (menu_navigate_down i) = i.
Proof.
  intros H. unfold menu_navigate_up, menu_navigate_down.
  rewrite !Z.add_mod_idemp_l, !Zminus_mod_idemp_l by lia.
  replace (i - 1 + 1)%Z with i by lia. replace (i + 1 - 1)%Z with i by lia.
  rewrite Z.mod_small by lia. split; reflexivity.
Qed.

Lemma menu_navigate_inverse_witness :
  (0 <= 0 < 10)%Z /\ menu_navigate_down (menu_navigate_up 0) = 0%Z /\
  menu_navigate_up (menu_navigate_down 0) = 0%Z.
Proof. split; [lia | apply (menu_navigate_inverse 0%Z); lia]. Defined.

End MenuFacts.

(** *** [read_flow_meter]: faults and decoded values *)

Module SensorReadFacts.
Import Sensor.

Lemma f32_abs_range (bits : Z) : (0 <= f32_abs bits < 2 ^ 31)%Z.
Proof.
  unfold f32_abs. rewrite Z.land_ones by lia.
  apply Z.mod_pos_bound. reflexivity.
Qed.

Lemma read_totalizer_range (now : Q) (pd : PdResult) (s : SensorState) :
  (0 <= last_totalizer_bits s < 2 ^ 31)%Z ->
  (0 <= last_totalizer_bits (read_flow_meter now pd s) < 2 ^ 31)%Z.
Proof.
  intros H. unfold read_flow_meter. cbv zeta.
  destruct pd as [|raw]; [exact H|].
  destruct (Nat.leb 15 (List.length raw)); [|exact H].
  destruct (all_zero raw); [exact H|].
  destruct (raw_eq_last raw (last_raw_data s) && _); [exact H|].
  apply f32_abs_range.
Qed.

(** Every [read_flow_meter] result either records a fault or clears it:
    [connection_error] is set exactly when a fault is recorded; a fault
    never touches the stored totalizer, flow rate or last success time;
    every fault except a short frame asks for an IOL power cycle, while a
    short frame and a good frame leave the rate limiter alone. *)
Theorem read_fault_bookkeeping (now : Q) (pd : PdResult) (s : SensorState) :
  let s' := read_flow_meter now pd s in
  connection_error s' = match error_kind s' with None => false | Some _ => true end /\
  recovery s' = match error_kind s' with
                | None | Some ShortFrame => recovery s
                | Some _ => try_iol_power_cycle now (recovery s)
                end /\
  (error_kind s' <> None ->
   last_totalizer_bits s' = last_totalizer_bits s /\
   last_flow_bits s' = last_flow_bits s /\
   last_successful_read_time s' = last_successful_read_time s).
Proof.
  cbv zeta. unfold read_flow_meter. cbv zeta.
  destruct pd as [|raw];
    [|destruct (Nat.leb 15 (List.length raw));
      [destruct (all_zero raw);
       [|destruct (raw_eq_last raw (last_raw_data s) && _)]|]];
    cbn [connection_error error_kind recovery last_totalizer_bits last_flow_bits
         last_successful_read_time];
    (split; [reflexivity|]); (split; [reflexivity|]); intros Hn;
    first [ exfalso; apply Hn; reflexivity | split; [reflexivity|split; reflexivity] ].
Qed.

(** The decoded totalizer is an IEEE-754 single with its sign bit
    cleared ([abs]); starting from the initial [0.0], no sequence of reads
    ever stores a totalizer pattern with the sign bit set. *)
Theorem read_seq_totalizer_nonneg (s : SensorState) (rs : list (Q * PdResult)) :
  (0 <= last_totalizer_bits s < 2 ^ 31)%Z ->
  (0 <= last_totalizer_bits (read_seq s rs) < 2 ^ 31)%Z.
Proof.
  revert s. induction rs as [|[t pd] rs IH]; intros s H; [exact H|].
  change (read_seq s ((t, pd) :: rs)) with (read_seq (read_flow_meter t pd s) rs).
  apply IH. apply read_totalizer_range. exact H.
Qed.

Lemma read_seq_totalizer_nonneg_witness :
  (0 <= last_totalizer_bits Inputs.sensor0 < 2 ^ 31)%Z /\
  (0 <= last_totalizer_bits
          (read_seq Inputs.sensor0 [(0%Q, PdData Inputs.frame15); (1%Q, PdRaise)]) < 2 ^ 31)%Z.
Proof.
  split; [vm_compute; split; [discriminate|reflexivity]|].
  apply (read_seq_totalizer_nonneg Inputs.sensor0 [(0%Q, PdData Inputs.frame15); (1%Q, PdRaise)]).
  vm_compute. split; [discriminate|reflexivity].
Defined.

(** On a frame that differs from the previous one, the dashboard's
    [read_flow_meter] agrees with [FlowMeter._parse_data]: it stores the
    two values [_parse_data] returns, clears the fault and records the
    read time; where [_parse_data] raises "too short" it records a short
    frame, and where it raises "not responding" an all-zero frame. *)
Theorem read_matches_parse_data (fm : FlowMeter) (now : Q) (raw : list Byte.byte)
    (s : SensorState) :
  raw_eq_last raw (last_raw_data s) = false ->
  let s' := read_flow_meter now (PdData raw) s in
  match parse_data fm raw with
  | inl (t, f) =>
      last_totalizer_bits s' = t /\ last_flow_bits s' = f /\
      error_kind s' = None /\ last_successful_read_time s' = now
  | inr DataTooShort => error_kind s' = Some ShortFrame
  | inr DeviceNotResponding => error_kind s' = Some AllZero
  end.
Proof.
  intros H. cbv zeta. unfold read_flow_meter, parse_data. cbv zeta. rewrite H.
  destruct (Nat.ltb (List.length raw) 15) eqn:E1.
  - apply Nat.ltb_lt in E1.
    replace (Nat.leb 15 (List.length raw)) with false
      by (symmetry; apply Nat.leb_gt; lia).
    reflexivity.
  - apply Nat.ltb_ge in E1.
    replace (Nat.leb 15 (List.length raw)) with true
      by (symmetry; apply Nat.leb_le; lia).
    destruct (all_zero raw); [reflexivity|].
    cbn [andb]. cbv beta iota. repeat split.
Qed.

Lemma read_matches_parse_data_witness :
  raw_eq_last Inputs.frame15 (last_raw_data Inputs.sensor0) = false /\
  last_totalizer_bits (read_flow_meter 3 (PdData Inputs.frame15) Inputs.sensor0) = 16843009%Z /\
  last_flow_bits (read_flow_meter 3 (PdData Inputs.frame15) Inputs.sensor0) = 16843009%Z /\
  error_kind (read_flow_meter 3 (PdData Inputs.frame15) Inputs.sensor0) = None /\
  last_successful_read_time (read_flow_meter 3 (PdData Inputs.frame15) Inputs.sensor0) = 3.
Proof.
  split; [reflexivity|].
  exact (read_matches_parse_data Inputs.meter20 3 Inputs.frame15 Inputs.sensor0 eq_refl).
Defined.

End SensorReadFacts.
